(** * terraform-provider-azuread: reconciliation and CRUD handlers

    A shallow embedding of the resource handlers for groups, applications
    and service principals, of the MS Graph helpers they call, and of the
    string-slice reconciliation they perform on owners and members.

    Conventions of the embedding:
    - a Go [[]string] is a [list string]; a nil slice is the empty list;
    - a directory object and an update payload are finite maps from the Go
      field name to a value: a nil pointer field is an absent key, so that
      the keys of a payload are exactly the fields the handler assigned;
    - the two API clients are an oracle [respond] from the calls issued so
      far and the current call to a response; every call is logged;
    - a Go function body is a computation [Fn R A] that either goes on with
      a value ([Next]), has executed [return r] ([Ret]), or has dereferenced
      a nil pointer ([Panic]). *)

From Stdlib Require Import ZArith Ascii String.
From stdpp Require Import base option list strings gmap sets.

Local Open Scope string_scope.
Local Open Scope list_scope.
Local Open Scope Z_scope.

(** ** Strings *)

Module Strings.

(** ASCII lower-casing of one byte: 'A'..'Z' move to 'a'..'z'. *)
Definition toLower (c : ascii) : ascii :=
  let n := nat_of_ascii c in
  if ((65 <=? n)%nat && (n <=? 90)%nat)%bool then ascii_of_nat (n + 32) else c.

(** [strings.EqualFold] on ASCII strings: equality up to letter case.
    (Go folds all of Unicode; the two agree on strings of ASCII bytes.) *)
Fixpoint EqualFold (s t : string) : bool :=
  match s, t with
  | EmptyString, EmptyString => true
  | String a s', String b t' => Ascii.eqb (toLower a) (toLower b) && EqualFold s' t'
  | _, _ => false
  end.

(** Go's [==] on strings. *)
Definition eqs (s t : string) : bool := bool_decide (s = t).

End Strings.

(** ** internal/utils *)

Module utils.

(** Modelled from the spec: [utils.Difference] (package internal/utils is
    not part of the sources at hand).  Section 4.1: the helper returns
    [toAdd = desired \ existing] and [toRemove = existing \ desired];
    the handlers obtain the two by calling [Difference] with the
    arguments in the two orders, so [Difference a b] is the elements of
    [a] that are not in [b]. *)
Definition Difference (a b : list string) : list string :=
  filter (λ x, x ∉ b) a.

(** [http.StatusNotFound]. *)
Definition StatusNotFound : Z := 404.

(** Modelled from the spec: [utils.ResponseWasNotFound] (internal/utils is
    not part of the sources at hand).  Section 7: NotFound is the backend
    reporting the object absent; the MS Graph handlers test
    [status == http.StatusNotFound], and this is the same test on the
    status code of an AAD Graph response. *)
Definition ResponseWasNotFound (status : Z) : bool := (status =? StatusNotFound).

End utils.

(** The reconciliation every handler performs on a set-valued relationship:
    [xForRemoval := utils.Difference(existing, desired)] and
    [xToAdd := utils.Difference(desired, existing)]
    (group_resource_msgraph.go 179-180 and 207-208, application_resource.go
    940-941, helpers/msgraph ApplicationSetOwners). The result is the pair
    (toAdd, toRemove). *)
Definition reconcile (existing desired : list string) : list string * list string :=
  let forRemoval := utils.Difference existing desired in
  let toAdd := utils.Difference desired existing in
  (toAdd, forRemoval).

(** The set of identifiers a slice stands for. *)
Definition ids (l : list string) : gset string := list_to_set l.

(** ** Values, directory objects and payloads *)

(** What an attribute or a JSON field can hold: a string, a boolean, a list
    or set of strings, or a list of nested blocks (app roles, permission
    scopes, claims) whose members are string-keyed. *)
Inductive Value :=
| VString (s : string)
| VBool (b : bool)
| VStrings (l : list string)
| VBlocks (l : list (list (string * string))).

#[global] Instance Value_eq_dec : EqDecision Value.
Proof. solve_decision. Defined.

(** A directory object as the clients return it, and a payload as the
    handlers build it: Go field name to value, nil field = absent key. *)
Abbreviation Object := (gmap string Value).

(** A [*string] field: nil unless the key is present. *)
Definition getStr (o : Object) (field : string) : option string :=
  match o !! field with Some (VString s) => Some s | _ => None end.

Definition getBool (o : Object) (field : string) : option bool :=
  match o !! field with Some (VBool b) => Some b | _ => None end.

(** The zero value of Go for the type of a value. *)
Definition isZero (v : Value) : bool :=
  match v with
  | VString s => Strings.eqs s ""
  | VBool b => negb b
  | VStrings l => bool_decide (l = [])
  | VBlocks l => bool_decide (l = [])
  end.

(** ** Errors and diagnostics *)

(** A Go [error]: one the backend returned, [errors.New], [fmt.Errorf] with
    its format and string arguments ([Wrapf] when an error is among the
    arguments), or the timeout of a replication wait. *)
Inductive error :=
| BackendError (msg : string)
| ErrorsNew (msg : string)
| Errorf (format : string) (args : list string)
| Wrapf (format : string) (args : list string) (cause : error)
| ReplicationTimeout.

(** [diag.Diagnostic] as package tf builds them; all have severity Error.
    [ErrorDiag] is [tf.ErrorDiagF] (no attribute path) and
    [tf.ErrorDiagPathF]. *)
Inductive Diagnostic :=
| ErrorDiag (cause : option error) (attr : option string) (format : string) (args : list string)
| ImportAsDuplicate (resourceName id name : string)
| ImportAsExists (resourceName id : string).

(** [diag.Diagnostics]; nil is the empty list. *)
Abbreviation Diagnostics := (list Diagnostic).

Module tf.
Definition ErrorDiagF (e : option error) (format : string) (args : list string) : Diagnostics :=
  [ErrorDiag e None format args].
Definition ErrorDiagPathF (e : option error) (attr format : string) (args : list string) : Diagnostics :=
  [ErrorDiag e (Some attr) format args].
Definition ImportAsDuplicateDiag (resourceName id name : string) : Diagnostics :=
  [ImportAsDuplicate resourceName id name].
Definition ImportAsExistsDiag (resourceName id : string) : Diagnostics :=
  [ImportAsExists resourceName id].
End tf.

(** A handler has failed when it returns diagnostics, and succeeded when it
    returns nil. *)
Definition hasError (dg : Diagnostics) : bool :=
  match dg with [] => false | _ => true end.

(** ** schema.ResourceData *)

Inductive ValueType := TypeString | TypeBool | TypeList | TypeSet.

(** The part of [schema.ResourceData] the handlers use: the stored
    identifier, the attribute types of the schema, the prior state, the
    planned values (state merged with the configuration), and the values
    written with [d.Set] during the operation. *)
Record ResourceData := mkResourceData {
  rd_id : string;
  rd_schema : gmap string ValueType;
  rd_state : gmap string Value;
  rd_plan : gmap string Value;
  rd_set : gmap string Value;
}.

Module schema.

Definition Id (d : ResourceData) : string := rd_id d.

Definition SetId (v : string) (d : ResourceData) : ResourceData :=
  mkResourceData v (rd_schema d) (rd_state d) (rd_plan d) (rd_set d).

(** [d.Get(key)]: a written value, else the planned one. *)
Definition Get (d : ResourceData) (key : string) : option Value :=
  match rd_set d !! key with
  | Some v => Some v
  | None => rd_plan d !! key
  end.

(** [d.Get(key).(string)] and the like: an unset attribute reads as the
    zero value of its type. *)
Definition GetString (d : ResourceData) (key : string) : string :=
  match Get d key with Some (VString s) => s | _ => "" end.

Definition GetBool (d : ResourceData) (key : string) : bool :=
  match Get d key with Some (VBool b) => b | _ => false end.

(** [d.Get(key)] cast to a set or a list and expanded with
    [tf.ExpandStringSlicePtr]. *)
Definition GetStrings (d : ResourceData) (key : string) : list string :=
  match Get d key with Some (VStrings l) => l | _ => [] end.

Definition GetBlocks (d : ResourceData) (key : string) : list (list (string * string)) :=
  match Get d key with Some (VBlocks l) => l | _ => [] end.

(** [d.GetOk(key)]: the value, if it is set to a non-zero value. *)
Definition GetOk (d : ResourceData) (key : string) : option Value :=
  match Get d key with
  | Some v => if isZero v then None else Some v
  | None => None
  end.

(** [d.GetOkExists(key)]: the value, if it is set at all. *)
Definition GetOkExists (d : ResourceData) (key : string) : option Value := Get d key.

(** [d.HasChange(key)]: the prior and the planned value differ, an unset
    attribute counting as the zero value. *)
Definition normal (v : option Value) : option Value :=
  match v with
  | Some v => if isZero v then None else Some v
  | None => None
  end.

Definition HasChange (d : ResourceData) (key : string) : bool :=
  bool_decide (normal (rd_state d !! key) ≠ normal (rd_plan d !! key)).

Definition zeroOf (t : ValueType) : Value :=
  match t with
  | TypeString => VString ""
  | TypeBool => VBool false
  | TypeList | TypeSet => VStrings []
  end.

Definition fits (t : ValueType) (v : Value) : bool :=
  match t, v with
  | TypeString, VString _ | TypeBool, VBool _ => true
  | (TypeList | TypeSet), (VStrings _ | VBlocks _) => true
  | _, _ => false
  end.

(** [d.Set(key, value)]: fails unless the key is an attribute of the
    schema and the value has its type; a nil value writes the zero
    value. *)
Definition Set_ (d : ResourceData) (key : string) (v : option Value) : option ResourceData :=
  match rd_schema d !! key with
  | None => None
  | Some t =>
      let v' := default (zeroOf t) v in
      if fits t v'
      then Some (mkResourceData (rd_id d) (rd_schema d) (rd_state d) (rd_plan d)
                   (<[key := v']> (rd_set d)))
      else None
  end.

End schema.

(** [tf.ExpandStringSlicePtr] on the value of a set or list attribute. *)
Definition ExpandStringSlice (v : Value) : list string :=
  match v with VStrings l => l | _ => [] end.

(** The flatten functions of the handlers ([tf.FlattenStringSlicePtr],
    [flattenApplication...], [aadgraph.Flatten...]) map a field of the
    directory object to the attribute value, field by field; the embedding
    carries the value itself.  A nil field flattens to the empty list. *)
Definition flatten (v : option Value) : option Value :=
  Some (default (VStrings []) v).

(** ** The backend *)

Inductive Api := AadGraph | MsGraph.
Inductive Service := Groups | Applications | ServicePrincipals.
Inductive Op :=
| OpList | OpCreate | OpGet | OpUpdate | OpPatch | OpDelete
| OpListOwners | OpListMembers
| OpAddOwners | OpRemoveOwners | OpAddMembers | OpRemoveMembers
| OpAddOwner | OpRemoveOwner | OpAddMember | OpRemoveMember.

(** One call of a client method: the object ID or list filter it is
    addressed to, the payload object (create, update and patch), and the
    identifiers it carries (owners and members to add or remove). *)
Record Call := mkCall {
  c_api : Api;
  c_svc : Service;
  c_op : Op;
  c_target : string;
  c_payload : Object;
  c_ids : list string;
}.

#[global] Instance Api_eq_dec : EqDecision Api.
Proof. solve_decision. Defined.
#[global] Instance Service_eq_dec : EqDecision Service.
Proof. solve_decision. Defined.
#[global] Instance Op_eq_dec : EqDecision Op.
Proof. solve_decision. Defined.

(** What a client method returns: the HTTP status, the error (nil on
    success), and the body: one object, a list of objects, or a list of
    identifiers. The clients return a body whenever the error is nil. *)
Record Response := mkResponse {
  r_status : Z;
  r_err : option error;
  r_obj : Object;
  r_objs : list Object;
  r_ids : list string;
}.

Definition NotFound (r : Response) : bool := utils.ResponseWasNotFound (r_status r).

(** The environment of a handler: the provider flag that selects the MS
    Graph handlers, the backend as an oracle on the calls made so far,
    [uuid.GenerateUUID], the number of polls the timeout of a
    replication wait allows, and the two AAD Graph helpers that set app
    roles and permission scopes (package helpers/aadgraph is not among the
    sources; they act on the backend only, and no claim depends on what
    they do). *)
Record Env := mkEnv {
  EnableMsGraphBeta : bool;
  respond : list Call → Call → Response;
  GenerateUUID : list Call → string + error;
  polls : nat;
  AppRolesSet : string → list (list (string * string)) → list Call → option error * list Call;
  OAuth2PermissionsSet : string → list (list (string * string)) → list Call → option error * list Call;
}.

(** The state a handler runs on: the resource data [d] and the log of
    backend calls, oldest first. *)
Record World := mkWorld {
  rd : ResourceData;
  log : list Call;
}.

(** ** Function bodies *)

Inductive Outcome (R A : Type) :=
| Next (a : A)
| Ret (r : R)
| Panic.
Arguments Next {R A} a.
Arguments Ret {R A} r.
Arguments Panic {R A}.

Definition Fn (R A : Type) : Type := World → Outcome R A * World.

Definition next {R A} (a : A) : Fn R A := λ w, (Next a, w).
Definition ret {R A} (r : R) : Fn R A := λ w, (Ret r, w).
Definition panic {R A} : Fn R A := λ w, (Panic, w).

Definition bind {R A B} (m : Fn R A) (k : A → Fn R B) : Fn R B :=
  λ w, match m w with
       | (Next a, w') => k a w'
       | (Ret r, w') => (Ret r, w')
       | (Panic, w') => (Panic, w')
       end.

Notation "'let*' x ':=' m 'in' k" := (bind m (λ x, k))
  (at level 10, x name, m at level 100, k at level 200, only parsing).

(** Calling a function from another: its return value is the value of the
    call; falling off the end of a body returns its last value. *)
Definition invoke {R R'} (f : Fn R R) : Fn R' R :=
  λ w, match f w with
       | (Next r, w') | (Ret r, w') => (Next r, w')
       | (Panic, w') => (Panic, w')
       end.

(** What a function returned, if it did not panic. *)
Definition returned {R} (o : Outcome R R * World) : option R :=
  match o.1 with Next r | Ret r => Some r | Panic => None end.

(** [*p]: dereferencing nil panics. *)
Definition deref {R A} (p : option A) : Fn R A :=
  match p with Some a => next a | None => panic end.

(** [if c { body }]. *)
Definition when {R} (c : bool) (body : Fn R unit) : Fn R unit :=
  if c then body else next tt.

(** [for _, x := range l { body }]. *)
Fixpoint forRange {R A} (l : list A) (body : A → Fn R unit) : Fn R unit :=
  match l with
  | [] => next tt
  | x :: l' => let* _ := body x in forRange l' body
  end.

Definition getD {R} : Fn R ResourceData := λ w, (Next (rd w), w).
Definition putD {R} (f : ResourceData → ResourceData) : Fn R unit :=
  λ w, (Next tt, mkWorld (f (rd w)) (log w)).

(** [tf.Set(d, key, value)]: the diagnostics of a failed [d.Set], nil
    otherwise. *)
Definition tfSet {R} (key : string) (v : option Value) : Fn R Diagnostics :=
  λ w, match schema.Set_ (rd w) key v with
       | Some d' => (Next [], mkWorld d' (log w))
       | None => (Next (tf.ErrorDiagPathF None key "Could not set attribute" [key]), w)
       end.

(** [if dg := tf.Set(d, key, value); dg != nil { return dg }]. *)
Definition setOrReturn (key : string) (v : option Value) : Fn Diagnostics unit :=
  let* dg := tfSet key v in
  if hasError dg then ret dg else next tt.

Section WithEnv.
Context (env : Env).

(** A client method: the call is logged and the backend answers. *)
Definition call {R} (c : Call) : Fn R Response :=
  λ w, (Next (respond env (log w) c), mkWorld (rd w) (log w ++ [c])).

Definition request {R} (api : Api) (svc : Service) (op : Op) (target : string)
    (payload : Object) (l : list string) : Fn R Response :=
  call (mkCall api svc op target payload l).

(** A helper that acts on the backend only. *)
Definition onBackend {R A} (f : list Call → A * list Call) : Fn R A :=
  λ w, let '(a, l) := f (log w) in (Next a, mkWorld (rd w) l).

End WithEnv.

(** [if err != nil { return mk(err) }]. *)
Definition check {R} (e : option error) (mk : error → R) : Fn R unit :=
  match e with Some e => ret (mk e) | None => next tt end.

(** [fmt.Sprintf("displayName eq '%s'", displayName)]. *)
Definition displayNameFilter (displayName : string) : string :=
  "displayName eq '" +:+ displayName +:+ "'".

(** Assigning a payload field when a condition holds. *)
Definition setWhen (c : bool) (field : string) (v : Value) (o : Object) : Object :=
  if c then <[field := v]> o else o.

(** ** internal/helpers/msgraph *)

Module msgraph.
Section WithEnv.
Context (env : Env).

(** helpers/msgraph/group.go, [GroupCheckNameAvailability]: the ID of a
    listed group other than [existingID] whose display name matches
    case-insensitively. *)
Definition GroupCheckNameAvailability (displayName : string) (existingID : option string)
  : Fn (option string * option error) (option string * option error) :=
  let filter := displayNameFilter displayName in
  let* result := request env MsGraph Groups OpList filter ∅ [] in
  let* _ := check (r_err result) (λ e, (None, Some (Wrapf "unable to list groups: %+v" [] e))) in
  let* _ := forRange (r_objs result) (λ r,
    let* skip := match existingID with
                 | Some existing =>
                     let* rid := deref (getStr r "ID") in
                     next (Strings.eqs existing rid)
                 | None => next false
                 end in
    if skip : bool then next tt
    else
      let* name := deref (getStr r "DisplayName") in
      if Strings.EqualFold displayName name then ret (getStr r "ID", None)
      else next tt) in
  ret (None, None).

(** [ApplicationFindByName]: the first listed application whose display
    name is exactly [displayName]. *)
Definition ApplicationFindByName (displayName : string)
  : Fn (option Object * option error) (option Object * option error) :=
  let filter := displayNameFilter displayName in
  let* result := request env MsGraph Applications OpList filter ∅ [] in
  let* _ := check (r_err result)
              (λ e, (None, Some (Wrapf "unable to list Applications with filter %q: %+v" [filter] e))) in
  let* _ := forRange (r_objs result) (λ app,
    match getStr app "DisplayName" with
    | Some name => if Strings.eqs name displayName then ret (Some app, None) else next tt
    | None => next tt
    end) in
  ret (None, None).

(** Modelled from the spec: [msgraph.WaitForCreationReplication] (its file
    is not among the sources).  Section 4.2: the callback is polled until
    the object exists or the timeout elapses; not-found is transient and
    polled again, any other error is returned at once, and running out
    of polls is the replication timeout.  The timeout is the number of
    polls it allows. *)
Fixpoint WaitForCreationReplication {R} (timeout : nat) (poll : Fn R Response) : Fn R (option error) :=
  match timeout with
  | O => next (Some ReplicationTimeout)
  | S n =>
      let* r := poll in
      match r_err r with
      | None => next None
      | Some e => if NotFound r then WaitForCreationReplication n poll else next (Some e)
      end
  end.

(** [ApplicationSetOwners]: owners to remove are removed in one call,
    then the owners to add are appended to the model and added in one
    call; a nil difference skips its call. *)
Definition ApplicationSetOwners (application : Object) (desiredOwners : list string)
  : Fn (option error) (option error) :=
  match getStr application "ID" with
  | None => ret (Some (Errorf "Cannot use Application model with nil ID" []))
  | Some appId =>
      let* owners := request env MsGraph Applications OpListOwners appId ∅ [] in
      let* _ := check (r_err owners)
                  (λ e, Some (Wrapf "retrieving owners for Application with object ID %q: %+v" [appId] e)) in
      let existingOwners := r_ids owners in
      let ownersForRemoval := utils.Difference existingOwners desiredOwners in
      let ownersToAdd := utils.Difference desiredOwners existingOwners in
      let* _ := when (negb (bool_decide (ownersForRemoval = [])))
        (let* r := request env MsGraph Applications OpRemoveOwners appId ∅ ownersForRemoval in
         check (r_err r)
           (λ e, Some (Wrapf "removing owner from Application with object ID %q: %+v" [appId] e))) in
      let* _ := when (negb (bool_decide (ownersToAdd = [])))
        (let* r := request env MsGraph Applications OpAddOwners appId application ownersToAdd in
         check (r_err r) Some) in
      ret None
  end.

(** [ApplicationSetAppRoles] and [ApplicationSetOAuth2PermissionScopes]:
    the existing roles (scopes) are disabled with one update and replaced
    with a second one, unless they already equal the new ones. *)
Definition replaceBlocks (field what : string) (application : Object)
    (new : option (list (list (string * string)))) : Fn (option error) (option error) :=
  match getStr application "ID" with
  | None => ret (Some (Errorf "Cannot use Application model with nil ID" []))
  | Some appId =>
      let new := default [] new in
      let* app := request env MsGraph Applications OpGet appId ∅ [] in
      let* _ := match r_err app with
                | Some e =>
                    if r_status app =? utils.StatusNotFound
                    then ret (Some (Errorf "application with ID %q was not found" [appId]))
                    else ret (Some (Wrapf "retrieving Application with object ID %q: %+v" [appId] e))
                | None => next tt
                end in
      match r_obj app !! field with
      | Some (VBlocks existing) =>
          if bool_decide (existing = new) then ret None
          else
            let* _ := when (negb (bool_decide (existing = [])))
              (let disabled := map (λ b, ("isEnabled", "false") :: b) existing in
               let* r := request env MsGraph Applications OpUpdate appId
                           {[ "ID" := VString appId; field := VBlocks disabled ]} [] in
               check (r_err r)
                 (λ e, Some (Wrapf ("disabling " +:+ what +:+ " for Application with object ID %q: %+v") [appId] e))) in
            let* r := request env MsGraph Applications OpUpdate appId
                        {[ "ID" := VString appId; field := VBlocks new ]} [] in
            let* _ := check (r_err r)
              (λ e, Some (Wrapf ("setting " +:+ what +:+ " for Application with object ID %q: %+v") [appId] e)) in
            ret None
      | _ =>
          let* r := request env MsGraph Applications OpUpdate appId
                      {[ "ID" := VString appId; field := VBlocks new ]} [] in
          let* _ := check (r_err r)
            (λ e, Some (Wrapf ("setting " +:+ what +:+ " for Application with object ID %q: %+v") [appId] e)) in
          ret None
      end
  end.

Definition ApplicationSetAppRoles := replaceBlocks "AppRoles" "App Roles".
Definition ApplicationSetOAuth2PermissionScopes :=
  replaceBlocks "Api.OAuth2PermissionScopes" "OAuth2 Permission Scopes".

End WithEnv.
End msgraph.

(** ** internal/helpers/aadgraph

    The package is not among the sources; the handlers below call it.  Its
    functions are modelled from the specification, their names and
    signatures from the call sites. *)

Module aadgraph.
Section WithEnv.
Context (env : Env).

(** Modelled from the spec: [aadgraph.WaitForCreationReplication] is
    missing.  Section 4.2, as for the MS Graph variant: poll until the
    object exists, not-found is polled again, any other error is returned
    at once, and running out of polls is the replication timeout. *)
Fixpoint WaitForCreationReplication {R} (timeout : nat) (poll : Fn R Response) : Fn R (option error) :=
  match timeout with
  | O => next (Some ReplicationTimeout)
  | S n =>
      let* r := poll in
      match r_err r with
      | None => next None
      | Some e => if NotFound r then WaitForCreationReplication n poll else next (Some e)
      end
  end.

(** Modelled from the spec: [aadgraph.WaitForListRemove] is missing.
    Section 4.2, second variant: poll the list until the value has
    disappeared from it or the timeout elapses; an error of the poll is
    returned. *)
Fixpoint WaitForListRemove {R} (timeout : nat) (item : string)
    (poll : Fn R (list string * option error)) : Fn R (option error) :=
  match timeout with
  | O => next (Some ReplicationTimeout)
  | S n =>
      let* r := poll in
      match r.2 with
      | Some e => next (Some e)
      | None => if bool_decide (item ∈ r.1) then WaitForListRemove n item poll else next None
      end
  end.

(** Modelled from the spec: the listing helpers [GroupAllOwners],
    [GroupAllMembers] and [ApplicationAllOwners] are missing.  Section 3:
    the existing set is the list of identifiers last observed from the
    backend for the relationship (section 6: ListOwners, ListMembers). *)
Definition listIds {R} (svc : Service) (op : Op) (id : string) : Fn R (list string * option error) :=
  let* r := request env AadGraph svc op id ∅ [] in
  match r_err r with
  | Some e => next ([], Some e)
  | None => next (r_ids r, None)
  end.

Definition GroupAllOwners {R} := @listIds R Groups OpListOwners.
Definition GroupAllMembers {R} := @listIds R Groups OpListMembers.
Definition ApplicationAllOwners {R} := @listIds R Applications OpListOwners.

(** Modelled from the spec: the adding helpers [GroupAddMember],
    [GroupAddMembers], [GroupAddOwners] and [ApplicationAddOwners] are
    missing.  Section 4.1: the identifiers to add are applied with the
    add backend call, in the minimal number of calls (none for an empty
    list), and a failed add call surfaces the error and attempts nothing
    further. *)
Fixpoint addEach {R} (svc : Service) (op : Op) (id : string) (l : list string) : Fn R (option error) :=
  match l with
  | [] => next None
  | x :: l' =>
      let* r := request env AadGraph svc op id ∅ [x] in
      match r_err r with
      | Some e => next (Some e)
      | None => addEach svc op id l'
      end
  end.

Definition GroupAddMember {R} (groupId member : string) := @addEach R Groups OpAddMember groupId [member].
Definition GroupAddMembers {R} := @addEach R Groups OpAddMember.
Definition GroupAddOwners {R} := @addEach R Groups OpAddOwner.
Definition ApplicationAddOwners {R} := @addEach R Applications OpAddOwner.

(** Modelled from the spec: [aadgraph.GroupRemoveMember] is missing.
    Section 4.1: identifiers to remove are applied with the remove
    backend call. *)
Definition GroupRemoveMember {R} (groupId member : string) : Fn R (option error) :=
  let* r := request env AadGraph Groups OpRemoveMember groupId ∅ [member] in
  next (r_err r).

(** Modelled from the spec: [aadgraph.GroupFindByName] and
    [aadgraph.ApplicationFindByName] are missing.  Section 4.3 and 7: the
    duplicate check looks an object with the same display name up and
    fails before any create call. *)
Definition findByName {R} (svc : Service) (name : string) : Fn R (option Object * option error) :=
  let* r := request env AadGraph svc OpList (displayNameFilter name) ∅ [] in
  match r_err r with
  | Some e => next (None, Some e)
  | None => next (find (λ o, bool_decide (getStr o "DisplayName" = Some name)) (r_objs r), None)
  end.

Definition GroupFindByName {R} := @findByName R Groups.
Definition ApplicationFindByName {R} := @findByName R Applications.

(** Modelled from the spec: [aadgraph.GroupMemberIdFrom] and
    [ParseGroupMemberId] are missing.  Section 6: a membership is
    identified by a composite [parentId/kind/keyId] string with a parse
    and format round trip; the kind of a group member is "member", as in
    helpers/msgraph/group.go. *)
Record GroupMemberId := mkGroupMemberId { GroupId : string; MemberId : string }.

Definition GroupMemberIdFrom (groupId memberId : string) : GroupMemberId :=
  mkGroupMemberId groupId memberId.

Definition GroupMemberId_String (id : GroupMemberId) : string :=
  GroupId id +:+ "/member/" +:+ MemberId id.

(** The text before the first '/' and the text after it. *)
Fixpoint cut (s : string) : option (string * string) :=
  match s with
  | EmptyString => None
  | String c s' =>
      if Ascii.eqb c "/"%char then Some (EmptyString, s')
      else match cut s' with
           | Some (a, b) => Some (String c a, b)
           | None => None
           end
  end.

Definition ParseGroupMemberId (s : string) : GroupMemberId + error :=
  match cut s with
  | Some (g, rest) =>
      match cut rest with
      | Some (kind, m) =>
          if Strings.eqs kind "member" && negb (Strings.eqs g "") && negb (Strings.eqs m "")
             && negb (bool_decide (is_Some (cut m)))
          then inl (mkGroupMemberId g m)
          else inr (Errorf "Group Member ID should be in the format {groupId}/member/{memberId}" [s])
      | None => inr (Errorf "Group Member ID should be in the format {groupId}/member/{memberId}" [s])
      end
  | None => inr (Errorf "Group Member ID should be in the format {groupId}/member/{memberId}" [s])
  end.

End WithEnv.
End aadgraph.

(** [uuid.GenerateUUID()]. *)
Definition genUUID {R} (env : Env) : Fn R (string + error) :=
  λ w, (Next (GenerateUUID env (log w)), w).

(** ** internal/services/groups *)

Module groups.
Section WithEnv.
Context (env : Env).

Definition badGroupId : Diagnostics :=
  tf.ErrorDiagF (Some (ErrorsNew "API returned group with nil object ID")) "Bad API Response" [].

(** group_resource_msgraph.go, [groupResourceReadMsGraph]. *)
Definition groupResourceReadMsGraph : Fn Diagnostics Diagnostics :=
  let* d := getD in
  let* r := request env MsGraph Groups OpGet (schema.Id d) ∅ [] in
  let* _ := match r_err r with
            | Some e =>
                if r_status r =? utils.StatusNotFound
                then let* _ := putD (schema.SetId "") in ret []
                else ret (tf.ErrorDiagF (Some e) "Retrieving group with object ID: %q" [schema.Id d])
            | None => next tt
            end in
  let group := r_obj r in
  let* _ := setOrReturn "object_id" (group !! "ID") in
  let* _ := setOrReturn "name" (group !! "DisplayName") in
  let* _ := setOrReturn "description" (group !! "Description") in
  let* gid := deref (getStr group "ID") in
  let* owners := request env MsGraph Groups OpListOwners gid ∅ [] in
  let* _ := check (r_err owners) (λ e, tf.ErrorDiagPathF (Some e) "owners"
              "Could not retrieve owners for group with object ID %q" [schema.Id d]) in
  let* _ := setOrReturn "owners" (Some (VStrings (r_ids owners))) in
  let* members := request env MsGraph Groups OpListMembers gid ∅ [] in
  let* _ := check (r_err members) (λ e, tf.ErrorDiagPathF (Some e) "owners"
              "Could not retrieve members for group with object ID %q" [schema.Id d]) in
  let* _ := setOrReturn "members" (Some (VStrings (r_ids members))) in
  let* d := getD in
  let preventDuplicates := if schema.GetBool d "prevent_duplicate_names" then true else false in
  let* _ := setOrReturn "prevent_duplicate_names" (Some (VBool preventDuplicates)) in
  ret [].

(** [groupResourceCreateMsGraph].  [AppendMember] and [AppendOwner] put
    the identifiers into the payload. *)
Definition groupResourceCreateMsGraph : Fn Diagnostics Diagnostics :=
  let* d := getD in
  let displayName := schema.GetString d "name" in
  let* _ := when (schema.GetBool d "prevent_duplicate_names")
    (let* res := invoke (msgraph.GroupCheckNameAvailability env displayName None) in
     let* _ := check res.2 (λ e, tf.ErrorDiagPathF (Some e) "name" "Could not check for existing group(s)" []) in
     match res.1 with
     | Some existingId => ret (tf.ImportAsDuplicateDiag "azuread_group" existingId displayName)
     | None => next tt
     end) in
  let* u := genUUID env in
  match u with
  | inr e => ret (tf.ErrorDiagF (Some e) "Failed to generate mailNickname" [])
  | inl mailNickname =>
      let properties : Object :=
        {[ "DisplayName" := VString displayName;
           "MailNickname" := VString mailNickname;
           "SecurityEnabled" := VBool true;
           "MailEnabled" := VBool false ]} in
      let properties :=
        match schema.GetOk d "description" with
        | Some v => <["Description" := v]> properties
        | None => properties
        end in
      let properties :=
        match schema.GetOk d "members" with
        | Some v => <["Members" := VStrings (ExpandStringSlice v)]> properties
        | None => properties
        end in
      let properties :=
        match schema.GetOk d "owners" with
        | Some v => <["Owners" := VStrings (ExpandStringSlice v)]> properties
        | None => properties
        end in
      let* r := request env MsGraph Groups OpCreate "" properties [] in
      let* _ := check (r_err r) (λ e, tf.ErrorDiagF (Some e) "Creating group %q" [displayName]) in
      let group := r_obj r in
      match getStr group "ID" with
      | None => ret badGroupId
      | Some gid =>
          let* _ := putD (schema.SetId gid) in
          let* err := msgraph.WaitForCreationReplication (polls env)
                        (request env MsGraph Groups OpGet gid ∅ []) in
          let* _ := check err (λ e, tf.ErrorDiagF (Some e) "Waiting for Group with object ID: %q" [gid]) in
          let* dg := invoke groupResourceReadMsGraph in
          ret dg
      end
  end.

(** One relationship block of [groupResourceUpdateMsGraph]: list the
    existing identifiers, take the two differences, remove, then add. *)
Definition updateRelationMsGraph (key : string) (listOp removeOp addOp : Op)
    (listMsg removeMsg addMsg : string) (group : Object) : Fn Diagnostics Object :=
  let* d := getD in
  match schema.GetOkExists d key with
  | Some v =>
      if schema.HasChange d key then
        let* gid := deref (getStr group "ID") in
        let* existing := request env MsGraph Groups listOp gid ∅ [] in
        let* _ := check (r_err existing) (λ e, tf.ErrorDiagF (Some e) listMsg [schema.Id d]) in
        let existingIds := r_ids existing in
        let desiredIds := ExpandStringSlice v in
        let forRemoval := utils.Difference existingIds desiredIds in
        let toAdd := utils.Difference desiredIds existingIds in
        let* _ := when (negb (bool_decide (forRemoval = [])))
          (let* r := request env MsGraph Groups removeOp (schema.Id d) ∅ forRemoval in
           check (r_err r) (λ e, tf.ErrorDiagF (Some e) removeMsg [schema.Id d])) in
        if negb (bool_decide (toAdd = [])) then
          let field := match addOp with OpAddMembers => "Members" | _ => "Owners" end in
          let appended :=
            match group !! field with
            | Some (VStrings l) => l ++ toAdd
            | _ => toAdd
            end in
          let group := <[field := VStrings appended]> group in
          let* r := request env MsGraph Groups addOp gid group toAdd in
          let* _ := check (r_err r) (λ e, tf.ErrorDiagF (Some e) addMsg [schema.Id d]) in
          next group
        else next group
      else next group
  | None => next group
  end.

(** The payload of [groupResourceUpdateMsGraph]: the ID, the display
    name under [d.HasChange("display_name")], the description under
    [d.HasChange("description")]. *)
Definition groupUpdateProperties (d : ResourceData) : Object :=
  let group : Object := {[ "ID" := VString (schema.Id d) ]} in
  let displayName := schema.GetString d "name" in
  let group := setWhen (schema.HasChange d "display_name") "DisplayName" (VString displayName) group in
  setWhen (schema.HasChange d "description") "Description"
    (VString (schema.GetString d "description")) group.

(** [groupResourceUpdateMsGraph].  The duplicate-name check sits between
    the two assignments of the payload and does not touch it. *)
Definition groupResourceUpdateMsGraph : Fn Diagnostics Diagnostics :=
  let* d := getD in
  let displayName := schema.GetString d "name" in
  let* _ := when (schema.HasChange d "display_name")
    (when (schema.GetBool d "prevent_duplicate_names")
       (let* res := invoke (msgraph.GroupCheckNameAvailability env displayName (Some (schema.Id d))) in
        let* _ := check res.2 (λ e, tf.ErrorDiagPathF (Some e) "name" "Could not check for existing group(s)" []) in
        match res.1 with
        | Some existingId => ret (tf.ImportAsDuplicateDiag "azuread_group" existingId displayName)
        | None => next tt
        end)) in
  let group := groupUpdateProperties d in
  let* r := request env MsGraph Groups OpUpdate (schema.Id d) group [] in
  let* _ := check (r_err r) (λ e, tf.ErrorDiagF (Some e) "Updating group with ID: %q" [schema.Id d]) in
  let* group := updateRelationMsGraph "members" OpListMembers OpRemoveMembers OpAddMembers
                  "Could not retrieve members for group with ID: %q"
                  "Could not remove members from group with ID: %q"
                  "Could not add members to group with ID: %q" group in
  let* group := updateRelationMsGraph "owners" OpListOwners OpRemoveOwners OpAddOwners
                  "Could not retrieve eowners for group with ID: %q"
                  "Could not remove owners from group with ID: %q"
                  "Could not add owners to group with ID: %q" group in
  let* dg := invoke groupResourceReadMsGraph in
  ret dg.

(** [groupResourceDeleteMsGraph]: any error of the delete call is
    returned. *)
Definition groupResourceDeleteMsGraph : Fn Diagnostics Diagnostics :=
  let* d := getD in
  let* r := request env MsGraph Groups OpDelete (schema.Id d) ∅ [] in
  let* _ := check (r_err r) (λ e, tf.ErrorDiagF (Some e) "Deleting group with object ID: %q" [schema.Id d]) in
  ret [].


(** groups_data_source_aadgraph.go (second part),
    [groupResourceReadAadGraph]. *)
Definition groupResourceReadAadGraph : Fn Diagnostics Diagnostics :=
  let* d := getD in
  let* resp := request env AadGraph Groups OpGet (schema.Id d) ∅ [] in
  let* _ := match r_err resp with
            | Some e =>
                if utils.ResponseWasNotFound (r_status resp)
                then let* _ := putD (schema.SetId "") in ret []
                else ret (tf.ErrorDiagF (Some e) "Retrieving group with object ID: %q" [schema.Id d])
            | None => next tt
            end in
  let* _ := setOrReturn "object_id" (r_obj resp !! "ObjectID") in
  let* _ := setOrReturn "name" (r_obj resp !! "DisplayName") in
  let description := default "" (getStr (r_obj resp) "description") in
  let* _ := setOrReturn "description" (Some (VString description)) in
  let* members := aadgraph.GroupAllMembers env (schema.Id d) in
  let* _ := check members.2 (λ e, tf.ErrorDiagPathF (Some e) "owners"
              "Could not retrieve members for group with object ID %q" [schema.Id d]) in
  let* _ := setOrReturn "members" (Some (VStrings members.1)) in
  let* owners := aadgraph.GroupAllOwners env (schema.Id d) in
  let* _ := check owners.2 (λ e, tf.ErrorDiagPathF (Some e) "owners"
              "Could not retrieve owners for group with object ID %q" [schema.Id d]) in
  let* _ := setOrReturn "owners" (Some (VStrings owners.1)) in
  let* d := getD in
  let preventDuplicates := if schema.GetBool d "prevent_duplicate_names" then true else false in
  let* _ := setOrReturn "prevent_duplicate_names" (Some (VBool preventDuplicates)) in
  ret [].

(** group_resource.go, [groupResourceRead]: the router. *)
Definition groupResourceRead : Fn Diagnostics Diagnostics :=
  if EnableMsGraphBeta env
  then let* dg := invoke groupResourceReadMsGraph in ret dg
  else let* dg := invoke groupResourceReadAadGraph in ret dg.

(** [groupResourceCreateAadGraph]. *)
Definition groupResourceCreateAadGraph : Fn Diagnostics Diagnostics :=
  let* d := getD in
  let name := schema.GetString d "name" in
  let* _ := when (schema.GetBool d "prevent_duplicate_names")
    (let* res := aadgraph.GroupFindByName env name in
     let* _ := check res.2 (λ e, tf.ErrorDiagPathF (Some e) "name" "Could not check for existing group(s)" []) in
     match res.1 with
     | Some existingGroup =>
         match getStr existingGroup "ObjectID" with
         | None => ret (tf.ImportAsDuplicateDiag "azuread_group" "unknown" name)
         | Some oid => ret (tf.ImportAsDuplicateDiag "azuread_group" oid name)
         end
     | None => next tt
     end) in
  let* u := genUUID env in
  match u with
  | inr e => ret (tf.ErrorDiagF (Some e) "Failed to generate mailNickname" [])
  | inl mailNickname =>
      let properties : Object :=
        {[ "DisplayName" := VString name;
           "MailEnabled" := VBool false;
           "MailNickname" := VString mailNickname;
           "SecurityEnabled" := VBool true ]} in
      let properties :=
        match schema.GetOk d "description" with
        | Some v => <["description" := v]> properties
        | None => properties
        end in
      let* r := request env AadGraph Groups OpCreate "" properties [] in
      let* _ := check (r_err r) (λ e, tf.ErrorDiagF (Some e) "Creating group %q" [name]) in
      let group := r_obj r in
      match getStr group "ObjectID" with
      | None => ret badGroupId
      | Some oid =>
          if Strings.eqs oid "" then ret badGroupId
          else
            let* _ := putD (schema.SetId oid) in
            let* err := aadgraph.WaitForCreationReplication (polls env)
                          (request env AadGraph Groups OpGet oid ∅ []) in
            let* _ := check err (λ e, tf.ErrorDiagF (Some e) "Waiting for Group with object ID: %q" [oid]) in
            let* _ := match schema.GetOk d "members" with
                      | Some v =>
                          let members := ExpandStringSlice v in
                          let* err := aadgraph.GroupAddMembers env oid members in
                          check err (λ e, tf.ErrorDiagF (Some e) "Adding group members" [])
                      | None => next tt
                      end in
            let* _ := match schema.GetOk d "owners" with
                      | Some v =>
                          let* existingOwners := aadgraph.GroupAllOwners env oid in
                          let* _ := check existingOwners.2
                                      (λ e, tf.ErrorDiagF (Some e) "Could not retrieve group owners" []) in
                          let members := ExpandStringSlice v in
                          let ownersToAdd := utils.Difference members existingOwners.1 in
                          let* err := aadgraph.GroupAddOwners env oid ownersToAdd in
                          check err (λ e, tf.ErrorDiagF (Some e) "Adding group owners" [])
                      | None => next tt
                      end in
            let* dg := invoke groupResourceReadAadGraph in
            ret dg
      end
  end.

(** [groupResourceUpdateAadGraph]: for members and for owners, each
    identifier to remove is removed, then the identifiers to add are
    added. *)
Definition groupResourceUpdateAadGraph : Fn Diagnostics Diagnostics :=
  let* d := getD in
  let* _ :=
    match schema.GetOkExists d "members" with
    | Some v =>
        when (schema.HasChange d "members")
          (let* existingMembers := aadgraph.GroupAllMembers env (schema.Id d) in
           let* _ := check existingMembers.2 (λ e, tf.ErrorDiagPathF (Some e) "owners"
                       "Could not retrieve members for group with object ID %q" [schema.Id d]) in
           let desiredMembers := ExpandStringSlice v in
           let membersForRemoval := utils.Difference existingMembers.1 desiredMembers in
           let membersToAdd := utils.Difference desiredMembers existingMembers.1 in
           let* _ := forRange membersForRemoval (λ existingMember,
             let* err := aadgraph.GroupRemoveMember env (schema.Id d) existingMember in
             let* _ := check err (λ e, tf.ErrorDiagF (Some e) "Removing group members" []) in
             let* err := aadgraph.WaitForListRemove (polls env) existingMember
                           (aadgraph.GroupAllMembers env (schema.Id d)) in
             check err (λ e, tf.ErrorDiagF (Some e) "Waiting for group membership removal" [])) in
           let* err := aadgraph.GroupAddMembers env (schema.Id d) membersToAdd in
           check err (λ e, tf.ErrorDiagF (Some e) "Adding group members" []))
    | None => next tt
    end in
  let* _ :=
    match schema.GetOkExists d "owners" with
    | Some v =>
        when (schema.HasChange d "owners")
          (let* existingOwners := aadgraph.GroupAllOwners env (schema.Id d) in
           let* _ := check existingOwners.2 (λ e, tf.ErrorDiagPathF (Some e) "owners"
                       "Could not retrieve owners for group with object ID %q" [schema.Id d]) in
           let desiredOwners := ExpandStringSlice v in
           let ownersForRemoval := utils.Difference existingOwners.1 desiredOwners in
           let ownersToAdd := utils.Difference desiredOwners existingOwners.1 in
           let* _ := forRange ownersForRemoval (λ ownerToDelete,
             let* resp := request env AadGraph Groups OpRemoveOwner (schema.Id d) ∅ [ownerToDelete] in
             match r_err resp with
             | Some e =>
                 if negb (utils.ResponseWasNotFound (r_status resp))
                 then ret (tf.ErrorDiagF (Some e)
                             "Removing group owner %q from group with object ID: %q"
                             [ownerToDelete; schema.Id d])
                 else next tt
             | None => next tt
             end) in
           let* err := aadgraph.GroupAddOwners env (schema.Id d) ownersToAdd in
           check err (λ e, tf.ErrorDiagF (Some e) "Adding group owners" []))
    | None => next tt
    end in
  let* dg := invoke groupResourceRead in
  ret dg.

(** [groupResourceDeleteAadGraph]: a not-found answer to the delete call
    is not an error. *)
Definition groupResourceDeleteAadGraph : Fn Diagnostics Diagnostics :=
  let* d := getD in
  let* resp := request env AadGraph Groups OpDelete (schema.Id d) ∅ [] in
  let* _ := match r_err resp with
            | Some e =>
                if negb (utils.ResponseWasNotFound (r_status resp))
                then ret (tf.ErrorDiagF (Some e) "Deleting group with object ID: %q" [schema.Id d])
                else next tt
            | None => next tt
            end in
  ret [].

(** group_resource.go: the routers of the other three operations. *)
Definition groupResourceCreate : Fn Diagnostics Diagnostics :=
  if EnableMsGraphBeta env
  then let* dg := invoke groupResourceCreateMsGraph in ret dg
  else let* dg := invoke groupResourceCreateAadGraph in ret dg.

Definition groupResourceUpdate : Fn Diagnostics Diagnostics :=
  if EnableMsGraphBeta env
  then let* dg := invoke groupResourceUpdateMsGraph in ret dg
  else let* dg := invoke groupResourceUpdateAadGraph in ret dg.

Definition groupResourceDelete : Fn Diagnostics Diagnostics :=
  if EnableMsGraphBeta env
  then let* dg := invoke groupResourceDeleteMsGraph in ret dg
  else let* dg := invoke groupResourceDeleteAadGraph in ret dg.

(** group_data_source_aadgraph.go (second part),
    [groupMemberResourceReadAadGraph]. *)
Definition groupMemberResourceReadAadGraph : Fn Diagnostics Diagnostics :=
  let* d := getD in
  match aadgraph.ParseGroupMemberId (schema.Id d) with
  | inr e => ret (tf.ErrorDiagPathF (Some e) "id" "Parsing Group Member ID %q" [schema.Id d])
  | inl id =>
      let* members := aadgraph.GroupAllMembers env (aadgraph.GroupId id) in
      let* _ := check members.2 (λ e, tf.ErrorDiagF (Some e)
                  "Retrieving members for group with object ID: %q" [aadgraph.GroupId id]) in
      let memberObjectID :=
        default "" (find (λ objectID, Strings.EqualFold objectID (aadgraph.MemberId id)) members.1) in
      if Strings.eqs memberObjectID "" then
        let* _ := putD (schema.SetId "") in ret []
      else
        let* _ := setOrReturn "group_object_id" (Some (VString (aadgraph.GroupId id))) in
        let* _ := setOrReturn "member_object_id" (Some (VString memberObjectID)) in
        ret []
  end.

(** [groupMemberResourceCreateAadGraph].  The named lock serialises
    handlers on one group and has no effect on a single run; the final
    read goes through the router, which selects the AAD Graph handler for
    an AAD Graph resource. *)
Definition groupMemberResourceCreateAadGraph : Fn Diagnostics Diagnostics :=
  let* d := getD in
  let groupID := schema.GetString d "group_object_id" in
  let memberID := schema.GetString d "member_object_id" in
  let id := aadgraph.GroupMemberIdFrom groupID memberID in
  let* existingMembers := aadgraph.GroupAllMembers env groupID in
  let* _ := check existingMembers.2 (λ e, tf.ErrorDiagF (Some e)
              "Listing existing members for group with object ID: %q" [aadgraph.GroupId id]) in
  let* _ := when (0 <? Z.of_nat (length existingMembers.1))
    (forRange existingMembers.1 (λ v,
       if Strings.EqualFold v memberID
       then ret (tf.ImportAsExistsDiag "azuread_group_member" (aadgraph.GroupMemberId_String id))
       else next tt)) in
  let* err := aadgraph.GroupAddMember env groupID memberID in
  let* _ := check err (λ e, tf.ErrorDiagF (Some e) "Adding group member" []) in
  let* _ := putD (schema.SetId (aadgraph.GroupMemberId_String id)) in
  let* dg := invoke groupMemberResourceReadAadGraph in
  ret dg.

End WithEnv.
End groups.

(** ** internal/services/applications

    Nested structs of a payload are flattened to dotted leaf names
    ([Web.LogoutUrl]).  The expand functions map the blocks of an attribute
    to the structs of the API field by field and never return nil (except
    the MS Graph [expandApplicationAppRoles] on an empty list); the
    embedding carries the blocks themselves. *)

Module applications.
Section WithEnv.
Context (env : Env).

Definition blockValue (b : list (string * string)) : string :=
  default "" (snd <$> find (λ kv, Strings.eqs kv.1 "value") b).

(** The inner loops of [applicationValidateRolesScopes]. *)
Fixpoint firstDuplicate (values encountered : list string) : option error :=
  match values with
  | [] => None
  | val :: values' =>
      if existsb (λ en, Strings.eqs en val) encountered
      then Some (Errorf "validation failed: duplicate value found: %q" [val])
      else firstDuplicate values' (encountered ++ [val])
  end.

(** application_resource.go, [applicationValidateRolesScopes]: the
    non-empty values of roles and scopes must be pairwise different.
    [encountered] starts as [make([]string, len(values))]. *)
Definition applicationValidateRolesScopes (appRoles oauth2Permissions : list (list (string * string)))
  : option error :=
  let values :=
    filter (λ val, val ≠ "") (map blockValue appRoles)
    ++ filter (λ val, val ≠ "") (map blockValue oauth2Permissions) in
  let encountered := replicate (length values) "" in
  firstDuplicate values encountered.

(** [applicationSetOwnersTo]: the owners to add are added first, then each
    owner to remove is removed, a not-found answer being ignored. *)
Definition applicationSetOwnersTo (id : string) (desiredOwners : list string)
  : Fn (option error) (option error) :=
  let* existingOwners := aadgraph.ApplicationAllOwners env id in
  let* _ := check existingOwners.2 Some in
  let ownersForRemoval := utils.Difference existingOwners.1 desiredOwners in
  let ownersToAdd := utils.Difference desiredOwners existingOwners.1 in
  let* err := aadgraph.ApplicationAddOwners env id ownersToAdd in
  let* _ := check err Some in
  let* _ := forRange ownersForRemoval (λ ownerToDelete,
    let* resp := request env AadGraph Applications OpRemoveOwner id ∅ [ownerToDelete] in
    match r_err resp with
    | Some e =>
        if negb (utils.ResponseWasNotFound (r_status resp))
        then ret (Some (Wrapf "deleting owner %q from Application with ID %q: %+v" [ownerToDelete; id] e))
        else next tt
    | None => next tt
    end) in
  ret None.

(** The duplicate-name guard of [applicationResourceCreate] and
    [applicationResourceUpdate]. *)
Definition duplicateGuardAad (name : string) : Fn Diagnostics unit :=
  let* res := aadgraph.ApplicationFindByName env name in
  let* _ := check res.2 (λ e, tf.ErrorDiagPathF (Some e) "name" "Could not check for existing application(s)" []) in
  match res.1 with
  | Some existingApp =>
      match getStr existingApp "ObjectID" with
      | None => ret (tf.ImportAsDuplicateDiag "azuread_application" "unknown" name)
      | Some oid => ret (tf.ImportAsDuplicateDiag "azuread_application" oid name)
      end
  | None => next tt
  end.

Definition validateRolesScopes (d : ResourceData) : Fn Diagnostics unit :=
  check (applicationValidateRolesScopes (schema.GetBlocks d "app_role") (schema.GetBlocks d "oauth2_permissions"))
    (λ e, tf.ErrorDiagPathF (Some e) "app_role" "Checking for duplicate app role / oauth2_permissions values" []).

Definition badApplicationId : Diagnostics :=
  tf.ErrorDiagF (Some (ErrorsNew "Bad API response")) "Object ID returned for application is nil/empty" [].

(** [applicationResourceRead]. *)
Definition applicationResourceRead : Fn Diagnostics Diagnostics :=
  let* d := getD in
  let* app := request env AadGraph Applications OpGet (schema.Id d) ∅ [] in
  let* _ := match r_err app with
            | Some e =>
                if utils.ResponseWasNotFound (r_status app)
                then let* _ := putD (schema.SetId "") in ret []
                else ret (tf.ErrorDiagPathF (Some e) "application_object_id"
                            "Retrieving Application with object ID %q" [schema.Id d])
            | None => next tt
            end in
  let o := r_obj app in
  let* _ := setOrReturn "object_id" (o !! "ObjectID") in
  let* _ := setOrReturn "application_id" (o !! "AppID") in
  let* _ := setOrReturn "name" (o !! "DisplayName") in
  let* _ := setOrReturn "homepage" (o !! "Homepage") in
  let* _ := setOrReturn "logout_url" (o !! "LogoutURL") in
  let* _ := setOrReturn "available_to_other_tenants" (o !! "AvailableToOtherTenants") in
  let* _ := setOrReturn "oauth2_allow_implicit_flow" (o !! "Oauth2AllowImplicitFlow") in
  let* _ := setOrReturn "public_client" (o !! "PublicClient") in
  let appType := match getBool o "PublicClient" with
                 | Some true => "native"
                 | _ => "webapp/api"
                 end in
  let* _ := setOrReturn "type" (Some (VString appType)) in
  let* _ := setOrReturn "group_membership_claims" (o !! "GroupMembershipClaims") in
  let* _ := setOrReturn "identifier_uris" (flatten (o !! "IdentifierUris")) in
  let* _ := setOrReturn "reply_urls" (flatten (o !! "ReplyUrls")) in
  let* _ := setOrReturn "required_resource_access" (flatten (o !! "RequiredResourceAccess")) in
  let* _ := setOrReturn "optional_claims" (flatten (o !! "OptionalClaims")) in
  let* _ := setOrReturn "app_role" (flatten (o !! "AppRoles")) in
  let* _ := setOrReturn "oauth2_permissions" (flatten (o !! "Oauth2Permissions")) in
  let* owners := aadgraph.ApplicationAllOwners env (schema.Id d) in
  let* _ := match owners.2 with
            | Some e =>
                let* oid := deref (getStr o "ObjectID") in
                ret (tf.ErrorDiagPathF (Some e) "owners"
                       "Could not retrieve owners for application with object ID %q" [oid])
            | None => next tt
            end in
  let* _ := setOrReturn "owners" (Some (VStrings owners.1)) in
  let* d := getD in
  let preventDuplicates := if schema.GetBool d "prevent_duplicate_names" then true else false in
  let* _ := setOrReturn "prevent_duplicate_names" (Some (VBool preventDuplicates)) in
  ret [].

(** [applicationResourceCreate]. *)
Definition applicationResourceCreate : Fn Diagnostics Diagnostics :=
  let* d := getD in
  let name := schema.GetString d "name" in
  let* _ := when (schema.GetBool d "prevent_duplicate_names") (duplicateGuardAad name) in
  let* _ := validateRolesScopes d in
  let appType := schema.GetString d "type" in
  let hasIdentUrls := bool_decide (is_Some (schema.GetOk d "identifier_uris")) in
  let* _ := when (Strings.eqs appType "native")
              (when hasIdentUrls
                 (ret (tf.ErrorDiagPathF None "identifier_uris"
                         "Property is not required for a native application" []))) in
  let properties : Object :=
    {[ "DisplayName" := VString name;
       "IdentifierUris" := VStrings (schema.GetStrings d "identifier_uris");
       "ReplyUrls" := VStrings (schema.GetStrings d "reply_urls");
       "AvailableToOtherTenants" := VBool (schema.GetBool d "available_to_other_tenants");
       "RequiredResourceAccess" := VBlocks (schema.GetBlocks d "required_resource_access");
       "OptionalClaims" := VBlocks (schema.GetBlocks d "optional_claims") ]} in
  let addOk (key field : string) (o : Object) : Object :=
    match schema.GetOk d key with Some v => <[field := v]> o | None => o end in
  let properties := addOk "homepage" "Homepage" properties in
  let properties := addOk "logout_url" "LogoutURL" properties in
  let properties := addOk "oauth2_allow_implicit_flow" "Oauth2AllowImplicitFlow" properties in
  let properties := addOk "public_client" "PublicClient" properties in
  let properties := addOk "group_membership_claims" "GroupMembershipClaims" properties in
  let* app := request env AadGraph Applications OpCreate "" properties [] in
  let* _ := check (r_err app) (λ e, tf.ErrorDiagF (Some e) "Could not create application" []) in
  match getStr (r_obj app) "ObjectID" with
  | None => ret badApplicationId
  | Some oid =>
      if Strings.eqs oid "" then ret badApplicationId
      else
        let* _ := putD (schema.SetId oid) in
        let* err := aadgraph.WaitForCreationReplication (polls env)
                      (request env AadGraph Applications OpGet oid ∅ []) in
        let* _ := check err (λ e, tf.ErrorDiagF (Some e) "Waiting for Application with object ID: %q" [oid]) in
        let* _ := when (Strings.eqs appType "native")
          (let properties : Object :=
             {[ "IdentifierUris" := VStrings []; "PublicClient" := VBool true ]} in
           let* r := request env AadGraph Applications OpPatch oid properties [] in
           check (r_err r) (λ e, tf.ErrorDiagF (Some e) "Updating Application with object ID: %q" [oid])) in
        let* _ := match schema.GetOk d "app_role" with
                  | Some v =>
                      let* err := onBackend (AppRolesSet env oid (schema.GetBlocks d "app_role")) in
                      check err (λ e, tf.ErrorDiagPathF (Some e) "app_role" "Could not set App Roles" [])
                  | None => next tt
                  end in
        let* _ := match schema.GetOk d "oauth2_permissions" with
                  | Some v =>
                      let* err := onBackend (OAuth2PermissionsSet env oid (schema.GetBlocks d "oauth2_permissions")) in
                      check err (λ e, tf.ErrorDiagPathF (Some e) "oauth2_permissions" "Could not set OAuth2 Permissions" [])
                  | None => next tt
                  end in
        let* _ := match schema.GetOk d "owners" with
                  | Some v =>
                      let desiredOwners := ExpandStringSlice v in
                      let* err := invoke (applicationSetOwnersTo oid desiredOwners) in
                      check err (λ e, tf.ErrorDiagPathF (Some e) "owners" "Could not set Owners" [])
                  | None => next tt
                  end in
        let* dg := invoke applicationResourceRead in
        ret dg
  end.

(** The payload of [applicationResourceUpdate]: each field is assigned
    only under [d.HasChange] of its attribute; a change of [type] assigns
    [PublicClient] and [IdentifierUris].  [None] is the default case of
    the switch on the type. *)
Definition applicationUpdateParameters (d : ResourceData) : option Object :=
  let properties : Object := ∅ in
  let properties := setWhen (schema.HasChange d "name") "DisplayName"
                      (VString (schema.GetString d "name")) properties in
  let properties := setWhen (schema.HasChange d "homepage") "Homepage"
                      (VString (schema.GetString d "homepage")) properties in
  let properties := setWhen (schema.HasChange d "logout_url") "LogoutURL"
                      (VString (schema.GetString d "logout_url")) properties in
  let properties := setWhen (schema.HasChange d "identifier_uris") "IdentifierUris"
                      (VStrings (schema.GetStrings d "identifier_uris")) properties in
  let properties := setWhen (schema.HasChange d "reply_urls") "ReplyUrls"
                      (VStrings (schema.GetStrings d "reply_urls")) properties in
  let properties := setWhen (schema.HasChange d "available_to_other_tenants") "AvailableToOtherTenants"
                      (VBool (schema.GetBool d "available_to_other_tenants")) properties in
  let properties := setWhen (schema.HasChange d "oauth2_allow_implicit_flow") "Oauth2AllowImplicitFlow"
                      (VBool (schema.GetBool d "oauth2_allow_implicit_flow")) properties in
  let properties := setWhen (schema.HasChange d "public_client") "PublicClient"
                      (VBool (schema.GetBool d "public_client")) properties in
  let properties := setWhen (schema.HasChange d "required_resource_access") "RequiredResourceAccess"
                      (VBlocks (schema.GetBlocks d "required_resource_access")) properties in
  let properties := setWhen (schema.HasChange d "optional_claims") "OptionalClaims"
                      (VBlocks (schema.GetBlocks d "optional_claims")) properties in
  let properties := setWhen (schema.HasChange d "group_membership_claims") "GroupMembershipClaims"
                      (VString (schema.GetString d "group_membership_claims")) properties in
  if schema.HasChange d "type" then
    let appType := schema.GetString d "type" in
    if Strings.eqs appType "webapp/api" then
      Some (<["IdentifierUris" := VStrings (schema.GetStrings d "identifier_uris")]>
              (<["PublicClient" := VBool false]> properties))
    else if Strings.eqs appType "native" then
      Some (<["IdentifierUris" := VStrings []]> (<["PublicClient" := VBool true]> properties))
    else None
  else Some properties.

(** [applicationResourceUpdate]. *)
Definition applicationResourceUpdate : Fn Diagnostics Diagnostics :=
  let* d := getD in
  let name := schema.GetString d "name" in
  let* _ := when (schema.HasChange d "name" && schema.GetBool d "prevent_duplicate_names")
              (duplicateGuardAad name) in
  let* _ := validateRolesScopes d in
  match applicationUpdateParameters d with
  | None =>
      ret (tf.ErrorDiagPathF
             (Some (Errorf "Unknown application type %v. Supported types are: webapp/api, native"
                      [schema.GetString d "type"]))
             "type" "Updating Application with object ID: %q" [schema.Id d])
  | Some properties =>
      let* r := request env AadGraph Applications OpPatch (schema.Id d) properties [] in
      let* _ := check (r_err r) (λ e, tf.ErrorDiagF (Some e) "Updating Application with object ID %q" [schema.Id d]) in
      let* _ := when (schema.HasChange d "app_role")
        (let* err := onBackend (AppRolesSet env (schema.Id d) (schema.GetBlocks d "app_role")) in
         check err (λ e, tf.ErrorDiagPathF (Some e) "app_role" "Could not set App Roles" [])) in
      let* _ := when (schema.HasChange d "oauth2_permissions")
        (let* err := onBackend (OAuth2PermissionsSet env (schema.Id d) (schema.GetBlocks d "oauth2_permissions")) in
         check err (λ e, tf.ErrorDiagPathF (Some e) "oauth2_permissions" "Could not set OAuth2 Permissions" [])) in
      let* _ := when (schema.HasChange d "owners")
        (let desiredOwners := schema.GetStrings d "owners" in
         let* err := invoke (applicationSetOwnersTo (schema.Id d) desiredOwners) in
         check err (λ e, tf.ErrorDiagPathF (Some e) "owners" "Could not set Owners" [])) in
      let* dg := invoke applicationResourceRead in
      ret dg
  end.

(** [applicationResourceDelete]: an application available to other
    tenants has that setting disabled with a patch before the delete
    call; a not-found answer to the delete call is not an error. *)
Definition applicationResourceDelete : Fn Diagnostics Diagnostics :=
  let* d := getD in
  let availableToOtherTenants := schema.GetBool d "available_to_other_tenants" in
  let* _ := when availableToOtherTenants
    (let properties : Object := {[ "AvailableToOtherTenants" := VBool false ]} in
     let* r := request env AadGraph Applications OpPatch (schema.Id d) properties [] in
     check (r_err r) (λ e, tf.ErrorDiagF (Some e) "Updating Application with object ID %q" [schema.Id d])) in
  let* resp := request env AadGraph Applications OpDelete (schema.Id d) ∅ [] in
  let* _ := match r_err resp with
            | Some e =>
                if negb (utils.ResponseWasNotFound (r_status resp))
                then ret (tf.ErrorDiagF (Some e) "Deleting Application with object ID %q" [schema.Id d])
                else next tt
            | None => next tt
            end in
  ret [].


(** application_resource.go (second part),
    [applicationResourceReadMsGraph]. *)
Definition applicationResourceReadMsGraph : Fn Diagnostics Diagnostics :=
  let* d := getD in
  let* app := request env MsGraph Applications OpGet (schema.Id d) ∅ [] in
  let* _ := match r_err app with
            | Some e =>
                if r_status app =? utils.StatusNotFound
                then let* _ := putD (schema.SetId "") in ret []
                else ret (tf.ErrorDiagPathF (Some e) "id"
                            "Retrieving Application with object ID %q" [schema.Id d])
            | None => next tt
            end in
  let o := r_obj app in
  let* _ := setOrReturn "object_id" (o !! "ID") in
  let* _ := setOrReturn "application_id" (o !! "AppId") in
  let* _ := setOrReturn "app_role" (flatten (o !! "AppRoles")) in
  let availableToOtherTenants :=
    bool_decide (getStr o "SignInAudience" = Some "AzureADMultipleOrgs") in
  let* _ := setOrReturn "available_to_other_tenants" (Some (VBool availableToOtherTenants)) in
  let* _ := setOrReturn "display_name" (o !! "DisplayName") in
  let* _ := setOrReturn "name" (o !! "DisplayName") in
  let* _ := setOrReturn "group_membership_claims" (o !! "GroupMembershipClaims") in
  let* _ := setOrReturn "identifier_uris" (flatten (o !! "IdentifierUris")) in
  let* _ := setOrReturn "optional_claims" (flatten (o !! "OptionalClaims")) in
  let* oid := deref (getStr o "ID") in
  let* owners := request env MsGraph Applications OpListOwners oid ∅ [] in
  let* _ := check (r_err owners) (λ e, tf.ErrorDiagPathF (Some e) "owners"
              "Could not retrieve owners for application with object ID %q" [oid]) in
  let* _ := setOrReturn "owners" (Some (VStrings (r_ids owners))) in
  let* _ := setOrReturn "public_client" (o !! "IsFallbackPublicClient") in
  let* _ := setOrReturn "required_resource_access" (flatten (o !! "RequiredResourceAccess")) in
  let appType := match getBool o "IsFallbackPublicClient" with
                 | Some true => "native"
                 | _ => "webapp/api"
                 end in
  let* _ := setOrReturn "type" (Some (VString appType)) in
  let* _ := when (bool_decide (is_Some (o !! "Api")))
              (setOrReturn "oauth2_permissions" (flatten (o !! "Api.OAuth2PermissionScopes"))) in
  let* _ := when (bool_decide (is_Some (o !! "Web")))
    (let* _ := setOrReturn "homepage" (o !! "Web.HomePageUrl") in
     let* _ := setOrReturn "logout_url" (o !! "Web.LogoutUrl") in
     let* _ := setOrReturn "reply_urls" (flatten (o !! "Web.RedirectUris")) in
     when (bool_decide (is_Some (o !! "Web.ImplicitGrantSettings")))
       (setOrReturn "oauth2_allow_implicit_flow"
          (o !! "Web.ImplicitGrantSettings.EnableAccessTokenIssuance"))) in
  let* d := getD in
  let preventDuplicates := if schema.GetBool d "prevent_duplicate_names" then true else false in
  let* _ := setOrReturn "prevent_duplicate_names" (Some (VBool preventDuplicates)) in
  ret [].

(** [models.SignInAudienceAzureADMultipleOrgs] when the application is
    available to other tenants, [models.SignInAudienceAzureADMyOrg]
    otherwise. *)
Definition signInAudience (d : ResourceData) : string :=
  match schema.GetOk d "available_to_other_tenants" with
  | Some (VBool true) => "AzureADMultipleOrgs"
  | _ => "AzureADMyOrg"
  end.

(** The default permission scope [applicationResourceCreateMsGraph] sends
    when none is configured. *)
Definition defaultScope (id displayName : string) : list (string * string) :=
  [ ("adminConsentDescription", "Allow the application to access " +:+ displayName +:+ " on behalf of the signed-in user.");
    ("adminConsentDisplayName", "Access " +:+ displayName);
    ("id", id);
    ("isEnabled", "true");
    ("type", "User");
    ("userConsentDescription", "Allow the application to access " +:+ displayName +:+ " on your behalf.");
    ("userConsentDisplayName", "Access " +:+ displayName);
    ("value", "user_impersonation") ].

(** The display name [applicationResourceCreateMsGraph] works with: the
    [display_name] when it is set and not empty, else the [name]. *)
Definition createDisplayName (d : ResourceData) : string :=
  match schema.GetOk d "display_name" with
  | Some (VString v) => if negb (Strings.eqs v "") then v else schema.GetString d "name"
  | _ => schema.GetString d "name"
  end.

(** [applicationResourceCreateMsGraph]. *)
Definition applicationResourceCreateMsGraph : Fn Diagnostics Diagnostics :=
  let* d := getD in
  let displayName := createDisplayName d in
  let* _ := when (schema.GetBool d "prevent_duplicate_names")
    (let* res := invoke (msgraph.ApplicationFindByName env displayName) in
     let* _ := check res.2 (λ e, tf.ErrorDiagPathF (Some e) "name" "Could not check for existing application(s)" []) in
     match res.1 with
     | Some existingApp =>
         match getStr existingApp "ID" with
         | None => ret (tf.ImportAsDuplicateDiag "azuread_application" "unknown" displayName)
         | Some eid => ret (tf.ImportAsDuplicateDiag "azuread_application" eid displayName)
         end
     | None => next tt
     end) in
  let* _ := validateRolesScopes d in
  let appType := schema.GetString d "type" in
  let hasIdentUrls := bool_decide (is_Some (schema.GetOk d "identifier_uris")) in
  let* _ := when (Strings.eqs appType "native" && hasIdentUrls)
              (ret (tf.ErrorDiagPathF None "identifier_uris"
                      "Property is not required for a native application" [])) in
  let properties : Object :=
    {[ "DisplayName" := VString displayName;
       "IdentifierUris" := VStrings (schema.GetStrings d "identifier_uris");
       "OptionalClaims" := VBlocks (schema.GetBlocks d "optional_claims");
       "RequiredResourceAccess" := VBlocks (schema.GetBlocks d "required_resource_access");
       "SignInAudience" := VString (signInAudience d);
       "Web.ImplicitGrantSettings.EnableAccessTokenIssuance" :=
         VBool (schema.GetBool d "oauth2_allow_implicit_flow") ]} in
  let properties :=
    match schema.GetOk d "app_role" with
    | Some (VBlocks (b :: l)) => <["AppRoles" := VBlocks (b :: l)]> properties
    | _ => properties
    end in
  let addOk (key field : string) (o : Object) : Object :=
    match schema.GetOk d key with Some v => <[field := v]> o | None => o end in
  let properties := addOk "group_membership_claims" "GroupMembershipClaims" properties in
  let properties := addOk "homepage" "Web.HomePageUrl" properties in
  let properties := addOk "logout_url" "Web.LogoutUrl" properties in
  let* properties :=
    match schema.GetOk d "oauth2_permissions" with
    | Some v => next (<["Api.OAuth2PermissionScopes" := v]> properties)
    | None =>
        let* u := genUUID env in
        let id := match u with inl id => id | inr _ => "" end in
        next (<["Api.OAuth2PermissionScopes" := VBlocks [defaultScope id displayName]]> properties)
    end in
  let properties := addOk "public_client" "IsFallbackPublicClient" properties in
  let properties := addOk "reply_urls" "Web.RedirectUris" properties in
  let properties :=
    if Strings.eqs appType "native"
    then <["IsFallbackPublicClient" := VBool true]>
           (<["IdentifierUris" := VStrings []]> (delete "Web.HomePageUrl" properties))
    else properties in
  let* r := request env MsGraph Applications OpCreate "" properties [] in
  let* _ := check (r_err r) (λ e, tf.ErrorDiagF (Some e) "Could not create application" []) in
  let app := r_obj r in
  match getStr app "ID" with
  | None => ret badApplicationId
  | Some aid =>
      if Strings.eqs aid "" then ret badApplicationId
      else
        let* _ := putD (schema.SetId aid) in
        let* _ := match schema.GetOk d "owners" with
                  | Some v =>
                      let owners := ExpandStringSlice v in
                      let* err := invoke (msgraph.ApplicationSetOwners env app owners) in
                      check err (λ e, tf.ErrorDiagPathF (Some e) "owners"
                                   "Could not set owners for application with object ID: %q" [aid])
                  | None => next tt
                  end in
        let* dg := invoke applicationResourceReadMsGraph in
        ret dg
  end.

(** The display name [applicationResourceUpdateMsGraph] works with: the
    changed [display_name], else the changed [name], else empty. *)
Definition changedDisplayName (d : ResourceData) : string :=
  if schema.HasChange d "display_name" then schema.GetString d "display_name"
  else if schema.HasChange d "name" then schema.GetString d "name"
  else "".

(** The payload of [applicationResourceUpdateMsGraph]: the struct literal
    (lines 1187-1200) assigns the ID, the identifier URIs, the optional
    claims, the required resource access, the sign-in audience, the
    implicit grant setting and the logout URL whatever has changed; the
    other fields are assigned under [d.HasChange].  [None] is the default
    case of the switch on the type. *)
Definition applicationUpdateMsGraph (d : ResourceData) : option Object :=
  let displayName := changedDisplayName d in
  let properties : Object :=
    {[ "ID" := VString (schema.Id d);
       "IdentifierUris" := VStrings (schema.GetStrings d "identifier_uris");
       "OptionalClaims" := VBlocks (schema.GetBlocks d "optional_claims");
       "RequiredResourceAccess" := VBlocks (schema.GetBlocks d "required_resource_access");
       "SignInAudience" := VString (signInAudience d);
       "Web.ImplicitGrantSettings.EnableAccessTokenIssuance" :=
         VBool (schema.GetBool d "oauth2_allow_implicit_flow");
       "Web.LogoutUrl" := VString (schema.GetString d "logout_url") ]} in
  let properties := setWhen (negb (Strings.eqs displayName "")) "DisplayName"
                      (VString displayName) properties in
  let properties :=
    if schema.HasChange d "group_membership_claims" then
      match schema.GetOk d "group_membership_claims" with
      | Some v => <["GroupMembershipClaims" := v]> properties
      | None => delete "GroupMembershipClaims" properties
      end
    else properties in
  let properties := setWhen (schema.HasChange d "homepage") "Web.HomePageUrl"
                      (VString (schema.GetString d "homepage")) properties in
  let properties := setWhen (schema.HasChange d "public_client") "IsFallbackPublicClient"
                      (VBool (schema.GetBool d "public_client")) properties in
  let properties := setWhen (schema.HasChange d "reply_urls") "Web.RedirectUris"
                      (VStrings (schema.GetStrings d "reply_urls")) properties in
  if schema.HasChange d "type" then
    let appType := schema.GetString d "type" in
    if Strings.eqs appType "webapp/api" then
      Some (<["IdentifierUris" := VStrings (schema.GetStrings d "identifier_uris")]>
              (<["IsFallbackPublicClient" := VBool false]> properties))
    else if Strings.eqs appType "native" then
      Some (<["IdentifierUris" := VStrings []]> (<["IsFallbackPublicClient" := VBool true]> properties))
    else None
  else Some properties.

(** [applicationResourceUpdateMsGraph]. *)
Definition applicationResourceUpdateMsGraph : Fn Diagnostics Diagnostics :=
  let* d := getD in
  let displayName := changedDisplayName d in
  let* _ := when (negb (Strings.eqs displayName "") && schema.GetBool d "prevent_duplicate_names")
    (let* res := invoke (msgraph.ApplicationFindByName env displayName) in
     let* _ := check res.2 (λ e, tf.ErrorDiagPathF (Some e) "name" "Could not check for existing application(s)" []) in
     match res.1 with
     | Some existingApp =>
         match getStr existingApp "ID" with
         | None => ret (tf.ImportAsDuplicateDiag "azuread_application" "unknown" displayName)
         | Some eid =>
             if negb (Strings.eqs eid (schema.Id d))
             then ret (tf.ImportAsDuplicateDiag "azuread_application" eid displayName)
             else next tt
         end
     | None => next tt
     end) in
  let* _ := validateRolesScopes d in
  let appType := schema.GetString d "type" in
  let hasIdentUrls := bool_decide (is_Some (schema.GetOk d "identifier_uris")) in
  let* _ := when (Strings.eqs appType "native" && hasIdentUrls)
              (ret (tf.ErrorDiagPathF None "identifier_uris"
                      "Property is not required for a native application" [])) in
  match applicationUpdateMsGraph d with
  | None =>
      ret (tf.ErrorDiagPathF
             (Some (Errorf "Unknown application type %v. Supported types are: webapp/api, native"
                      [schema.GetString d "type"]))
             "type" "Updating Application with object ID: %q" [schema.Id d])
  | Some properties =>
      let* r := request env MsGraph Applications OpUpdate (schema.Id d) properties [] in
      let* _ := check (r_err r) (λ e, tf.ErrorDiagF (Some e) "Could not update application" []) in
      let* _ := when (schema.HasChange d "app_role")
        (let appRoles := match schema.GetBlocks d "app_role" with [] => None | l => Some l end in
         let* err := invoke (msgraph.ApplicationSetAppRoles env properties appRoles) in
         check err (λ e, tf.ErrorDiagPathF (Some e) "app_role" "Could not set App Roles" [])) in
      let* _ := when (schema.HasChange d "oauth2_permissions")
        (let oauth2Permissions := Some (schema.GetBlocks d "oauth2_permissions") in
         let* err := invoke (msgraph.ApplicationSetOAuth2PermissionScopes env properties oauth2Permissions) in
         check err (λ e, tf.ErrorDiagPathF (Some e) "oauth2_permissions"
                      "Could not set OAuth2 Permission Scopes" [])) in
      let* _ := when (schema.HasChange d "owners")
        (let owners := schema.GetStrings d "owners" in
         let* err := invoke (msgraph.ApplicationSetOwners env properties owners) in
         check err (λ e, tf.ErrorDiagPathF (Some e) "owners"
                      "Could not set owners for application with object ID: %q" [schema.Id d])) in
      ret []
  end.

(** [applicationResourceDeleteMsGraph]: returns nil; no call is made. *)
Definition applicationResourceDeleteMsGraph : Fn Diagnostics Diagnostics :=
  ret [].

End WithEnv.
End applications.

(** ** internal/services/serviceprincipals *)

Module serviceprincipals.
Section WithEnv.
Context (env : Env).

(** [servicePrincipalResourceRead]. *)
Definition servicePrincipalResourceRead : Fn Diagnostics Diagnostics :=
  let* d := getD in
  let objectId := schema.Id d in
  let* sp := request env AadGraph ServicePrincipals OpGet objectId ∅ [] in
  let* _ := match r_err sp with
            | Some e =>
                if utils.ResponseWasNotFound (r_status sp)
                then let* _ := putD (schema.SetId "") in ret []
                else ret (tf.ErrorDiagF (Some e) "retrieving service principal with object ID: %q" [schema.Id d])
            | None => next tt
            end in
  let o := r_obj sp in
  let* _ := setOrReturn "object_id" (o !! "ObjectID") in
  let* _ := setOrReturn "application_id" (o !! "AppID") in
  let* _ := setOrReturn "display_name" (o !! "DisplayName") in
  let* _ := setOrReturn "app_role_assignment_required" (o !! "AppRoleAssignmentRequired") in
  let* _ := setOrReturn "tags" (o !! "Tags") in
  let* _ := setOrReturn "app_roles" (flatten (o !! "AppRoles")) in
  let* _ := setOrReturn "oauth2_permissions" (flatten (o !! "Oauth2Permissions")) in
  ret [].

(** [servicePrincipalResourceCreate]. *)
Definition servicePrincipalResourceCreate : Fn Diagnostics Diagnostics :=
  let* d := getD in
  let applicationId := schema.GetString d "application_id" in
  let properties : Object :=
    {[ "AppID" := VString applicationId; "AccountEnabled" := VBool true ]} in
  let properties :=
    match schema.GetOk d "app_role_assignment_required" with
    | Some v => <["AppRoleAssignmentRequired" := v]> properties
    | None => properties
    end in
  let properties :=
    match schema.GetOk d "tags" with
    | Some v => <["Tags" := VStrings (ExpandStringSlice v)]> properties
    | None => properties
    end in
  let* sp := request env AadGraph ServicePrincipals OpCreate "" properties [] in
  let* _ := check (r_err sp) (λ e, tf.ErrorDiagF (Some e) "Could not create service principal" []) in
  let bad := tf.ErrorDiagF (Some (ErrorsNew "ObjectID returned for service principal is nil"))
               "Bad API response" [] in
  match getStr (r_obj sp) "ObjectID" with
  | None => ret bad
  | Some oid =>
      if Strings.eqs oid "" then ret bad
      else
        let* _ := putD (schema.SetId oid) in
        let* err := aadgraph.WaitForCreationReplication (polls env)
                      (request env AadGraph ServicePrincipals OpGet oid ∅ []) in
        let* _ := check err (λ e, tf.ErrorDiagF (Some e)
                    "Waiting for service principal with object ID: %q" [oid]) in
        let* dg := invoke servicePrincipalResourceRead in
        ret dg
  end.

(** The payload of [servicePrincipalResourceUpdate]. *)
Definition servicePrincipalUpdateParameters (d : ResourceData) : Object :=
  let properties : Object := ∅ in
  let properties := setWhen (schema.HasChange d "app_role_assignment_required")
                      "AppRoleAssignmentRequired"
                      (VBool (schema.GetBool d "app_role_assignment_required")) properties in
  if schema.HasChange d "tags" then
    match schema.GetOk d "tags" with
    | Some v => <["Tags" := VStrings (ExpandStringSlice v)]> properties
    | None => <["Tags" := VStrings []]> properties
    end
  else properties.

(** [servicePrincipalResourceUpdate]. *)
Definition servicePrincipalResourceUpdate : Fn Diagnostics Diagnostics :=
  let* d := getD in
  let properties := servicePrincipalUpdateParameters d in
  let* r := request env AadGraph ServicePrincipals OpUpdate (schema.Id d) properties [] in
  let* _ := check (r_err r) (λ e, tf.ErrorDiagF (Some e)
              "Updating service principal with object ID: %q" [schema.Id d]) in
  let* err := aadgraph.WaitForCreationReplication (polls env)
                (request env AadGraph ServicePrincipals OpGet (schema.Id d) ∅ []) in
  let* _ := check err (λ e, tf.ErrorDiagF (Some e)
              "Waiting for service principal with object ID: %q" [schema.Id d]) in
  let* dg := invoke servicePrincipalResourceRead in
  ret dg.

(** [servicePrincipalResourceDelete]: a not-found answer to the delete
    call is not an error. *)
Definition servicePrincipalResourceDelete : Fn Diagnostics Diagnostics :=
  let* d := getD in
  let applicationId := schema.Id d in
  let* app := request env AadGraph ServicePrincipals OpDelete applicationId ∅ [] in
  let* _ := match r_err app with
            | Some e =>
                if negb (utils.ResponseWasNotFound (r_status app))
                then ret (tf.ErrorDiagF (Some e) "Deleting service principal with object ID: %q" [schema.Id d])
                else next tt
            | None => next tt
            end in
  ret [].

End WithEnv.
End serviceprincipals.

(** ** The tracked objects and their handlers *)

(** The five families of resource handlers: groups and applications on
    either API, service principals on AAD Graph. *)
Inductive Resource := GroupAad | GroupMs | ApplicationAad | ApplicationMs | ServicePrincipal.

Definition apiOf (r : Resource) : Api :=
  match r with
  | GroupMs | ApplicationMs => MsGraph
  | _ => AadGraph
  end.

Definition serviceOf (r : Resource) : Service :=
  match r with
  | GroupAad | GroupMs => Groups
  | ApplicationAad | ApplicationMs => Applications
  | ServicePrincipal => ServicePrincipals
  end.

(** The field of the directory object that holds its object ID. *)
Definition idField (r : Resource) : string :=
  match apiOf r with MsGraph => "ID" | AadGraph => "ObjectID" end.

Definition Create (env : Env) (r : Resource) : Fn Diagnostics Diagnostics :=
  match r with
  | GroupAad => groups.groupResourceCreateAadGraph env
  | GroupMs => groups.groupResourceCreateMsGraph env
  | ApplicationAad => applications.applicationResourceCreate env
  | ApplicationMs => applications.applicationResourceCreateMsGraph env
  | ServicePrincipal => serviceprincipals.servicePrincipalResourceCreate env
  end.

Definition Read (env : Env) (r : Resource) : Fn Diagnostics Diagnostics :=
  match r with
  | GroupAad => groups.groupResourceReadAadGraph env
  | GroupMs => groups.groupResourceReadMsGraph env
  | ApplicationAad => applications.applicationResourceRead env
  | ApplicationMs => applications.applicationResourceReadMsGraph env
  | ServicePrincipal => serviceprincipals.servicePrincipalResourceRead env
  end.

Definition Delete (env : Env) (r : Resource) : Fn Diagnostics Diagnostics :=
  match r with
  | GroupAad => groups.groupResourceDeleteAadGraph env
  | GroupMs => groups.groupResourceDeleteMsGraph env
  | ApplicationAad => applications.applicationResourceDelete env
  | ApplicationMs => applications.applicationResourceDeleteMsGraph
  | ServicePrincipal => serviceprincipals.servicePrincipalResourceDelete env
  end.

Definition Update (env : Env) (r : Resource) : Fn Diagnostics Diagnostics :=
  match r with
  | GroupAad => groups.groupResourceUpdateAadGraph env
  | GroupMs => groups.groupResourceUpdateMsGraph env
  | ApplicationAad => applications.applicationResourceUpdate env
  | ApplicationMs => applications.applicationResourceUpdateMsGraph env
  | ServicePrincipal => serviceprincipals.servicePrincipalResourceUpdate env
  end.

(** The calls a handler addresses to the object [id]. *)
Definition callOn (r : Resource) (op : Op) (id : string) : Call :=
  mkCall (apiOf r) (serviceOf r) op id ∅ [].

(** The answers of the backend to a sequence of calls issued after
    [before]. *)
Fixpoint answers (env : Env) (before issued : list Call) : list Response :=
  match issued with
  | [] => []
  | c :: issued' => respond env before c :: answers env (before ++ [c]) issued'
  end.

(** The backend answers the listing call [c], issued in [w], with the
    identifiers [l]. *)
Definition answered (env : Env) (w : World) (c : Call) (l : list string) : Prop :=
  r_err (respond env (log w) c) = None ∧ r_ids (respond env (log w) c) = l.

(** ** The duplicate-name guard *)

(** The resource type a duplicate is reported for. *)
Definition resourceName (r : Resource) : string :=
  match r with
  | GroupAad | GroupMs => "azuread_group"
  | ApplicationAad | ApplicationMs => "azuread_application"
  | ServicePrincipal => "azuread_service_principal"
  end.

(** The display name a create handler gives the new object. *)
Definition createName (r : Resource) (d : ResourceData) : string :=
  match r with
  | ApplicationMs => applications.createDisplayName d
  | _ => schema.GetString d "name"
  end.

(** The listing call of the guard. *)
Definition listCall (r : Resource) (name : string) : Call :=
  mkCall (apiOf r) (serviceOf r) OpList (displayNameFilter name) ∅ [].

(** An object of the directory has an object ID and a display name. *)
Definition directoryObject (r : Resource) (o : Object) : Prop :=
  is_Some (getStr o (idField r)) ∧ is_Some (getStr o "DisplayName").


(** ** The object ID of a created object *)


(** [id] is the object ID a successful create call of the backend returned;
    it is not empty unless the handler is the MS Graph group handler. *)
Definition returnedId (env : Env) (r : Resource) (id : string) : Prop :=
  ∃ pre c, c_op c = OpCreate
    ∧ r_err (respond env pre c) = None
    ∧ getStr (r_obj (respond env pre c)) (idField r) = Some id
    ∧ (r ≠ GroupMs → id ≠ "").

(** Whatever [f] does, the stored ID stays in [S]. *)
Definition within (S : string → Prop) {R A} (f : Fn R A) : Prop :=
  ∀ w, S (rd_id (rd w)) → S (rd_id (rd (f w).2)).

(** The IDs a create handler started with the stored ID [id0] may leave
    behind. *)
Definition storable (env : Env) (r : Resource) (id0 : string) (id : string) : Prop :=
  id = id0 ∨ id = "" ∨ returnedId env r id.

(** [f] leaves the stored ID alone. *)
Definition idle {R A} (f : Fn R A) : Prop :=
  ∀ w, rd_id (rd (f w).2) = rd_id (rd w).

(** [f] leaves the resource data alone and does not panic; what it
    returns satisfies [E] and what it passes on satisfies [N]. *)
Definition yields {R A} (E : R → Prop) (N : A → Prop) (f : Fn R A) : Prop :=
  ∀ w, rd (f w).2 = rd w
       ∧ match (f w).1 with Ret r => E r | Next a => N a | Panic => False end.



(** Whatever [f] does, the resource data stays in [P]. *)
Definition preserves (P : ResourceData → Prop) {R A} (f : Fn R A) : Prop :=
  ∀ w, P (rd w) → P (rd (f w).2).

(** ** Update payloads *)

(** The attributes of the configuration a payload field is computed from.
    A change of the application [type] assigns the public-client flag and
    the identifier URIs. *)
Definition fieldAttributes : gmap string (list string) :=
  list_to_map
    [ ("DisplayName", ["name"; "display_name"]);
      ("Description", ["description"]);
      ("Homepage", ["homepage"]); ("Web.HomePageUrl", ["homepage"]);
      ("LogoutURL", ["logout_url"]); ("Web.LogoutUrl", ["logout_url"]);
      ("IdentifierUris", ["identifier_uris"; "type"]);
      ("ReplyUrls", ["reply_urls"]); ("Web.RedirectUris", ["reply_urls"]);
      ("AvailableToOtherTenants", ["available_to_other_tenants"]);
      ("SignInAudience", ["available_to_other_tenants"]);
      ("Oauth2AllowImplicitFlow", ["oauth2_allow_implicit_flow"]);
      ("Web.ImplicitGrantSettings.EnableAccessTokenIssuance", ["oauth2_allow_implicit_flow"]);
      ("PublicClient", ["public_client"; "type"]);
      ("IsFallbackPublicClient", ["public_client"; "type"]);
      ("RequiredResourceAccess", ["required_resource_access"]);
      ("OptionalClaims", ["optional_claims"]);
      ("GroupMembershipClaims", ["group_membership_claims"]);
      ("AppRoleAssignmentRequired", ["app_role_assignment_required"]);
      ("Tags", ["tags"]) ].

Definition attributesOf (field : string) : list string :=
  default [] (fieldAttributes !! field).

(** A payload field is changed when one of its attributes has a detected
    change. *)
Definition changed (d : ResourceData) (field : string) : Prop :=
  ∃ a, a ∈ attributesOf field ∧ schema.HasChange d a = true.

(** The payload holds, next to the ID that addresses the object, only
    changed fields. *)
Definition onlyChanged (d : ResourceData) (payload : Object) : Prop :=
  ∀ field, is_Some (payload !! field) → field = "ID" ∨ changed d field.

(** The fields the struct literal of [applicationResourceUpdateMsGraph]
    assigns. *)
Definition alwaysSent : list string :=
  [ "ID"; "IdentifierUris"; "OptionalClaims"; "RequiredResourceAccess"; "SignInAudience";
    "Web.ImplicitGrantSettings.EnableAccessTokenIssuance"; "Web.LogoutUrl" ].

(** ** Schemas, backends and resource data used in the examples *)

Module Examples.

(** The attributes of the group resource (group_resource.go). *)
Definition groupSchema : gmap string ValueType :=
  {[ "display_name" := TypeString; "name" := TypeString; "description" := TypeString;
     "members" := TypeSet; "owners" := TypeSet; "object_id" := TypeString;
     "prevent_duplicate_names" := TypeBool ]}.


(** The attributes of the application resource, with the [display_name]
    the MS Graph handlers read. *)
Definition applicationSchema : gmap string ValueType :=
  list_to_map
    [ ("name", TypeString); ("display_name", TypeString);
      ("available_to_other_tenants", TypeBool); ("group_membership_claims", TypeString);
      ("homepage", TypeString); ("identifier_uris", TypeList); ("logout_url", TypeString);
      ("oauth2_allow_implicit_flow", TypeBool); ("public_client", TypeBool);
      ("reply_urls", TypeSet); ("type", TypeString); ("app_role", TypeSet);
      ("oauth2_permissions", TypeSet); ("optional_claims", TypeList);
      ("required_resource_access", TypeSet); ("owners", TypeSet);
      ("application_id", TypeString); ("object_id", TypeString);
      ("prevent_duplicate_names", TypeBool) ].

Definition ok (o : Object) (l : list string) : Response := mkResponse 200 None o [] l.
Definition listed (l : list Object) : Response := mkResponse 200 None ∅ l [].
Definition notFound : Response := mkResponse 404 (Some (BackendError "404 Not Found")) ∅ [] [].
Definition forbidden : Response := mkResponse 403 (Some (BackendError "403 Forbidden")) ∅ [] [].

Definition noHelper (id : string) (blocks : list (list (string * string))) (l : list Call)
  : option error * list Call := (None, l).

Definition backend (msGraph : bool) (respond : list Call → Call → Response) : Env :=
  mkEnv msGraph respond (λ _, inl "6ba7b810-9dad-11d1-80b4-00c04fd430c8") 3 noHelper noHelper.

(** A group "g1" tracked with owners A and B, planned with owners B and
    C. *)
Definition groupOwnersAB_BC : ResourceData :=
  mkResourceData "g1" groupSchema
    {[ "name" := VString "team"; "owners" := VStrings ["A"; "B"] ]}
    {[ "name" := VString "team"; "owners" := VStrings ["B"; "C"] ]}
    ∅.

(** A backend on which the group "g1" has the owners A and B and no
    members. *)
Definition groupWithOwnersAB (msGraph : bool) : Env :=
  backend msGraph (λ _ c,
    match c_op c with
    | OpListOwners => ok ∅ ["A"; "B"]
    | OpGet => ok {[ "ID" := VString "g1"; "ObjectID" := VString "g1"; "DisplayName" := VString "team" ]} []
    | _ => ok ∅ []
    end).

(** The calls of a log, without their payloads. *)
Definition summary (l : list Call) : list (Api * Op * string * list string) :=
  map (λ c, (c_api c, c_op c, c_target c, c_ids c)) l.

(** A backend that knows no object: every call is answered not-found. *)
Definition emptyDirectory (msGraph : bool) : Env := backend msGraph (λ _ _, notFound).

(** A tracked group "g1" with nothing planned. *)
Definition trackedGroup : ResourceData :=
  mkResourceData "g1" groupSchema {[ "name" := VString "team" ]} {[ "name" := VString "team" ]} ∅.

(** A tracked application "a1" that is available to other tenants. *)
Definition sharedApplication : ResourceData :=
  mkResourceData "a1" applicationSchema
    {[ "name" := VString "app"; "available_to_other_tenants" := VBool true ]}
    {[ "name" := VString "app"; "available_to_other_tenants" := VBool true ]} ∅.

(** A directory that lists one object, named [name], for every filter,
    and whose groups have the one member [member]. *)
Definition directoryWith (name member : string) : Env :=
  backend true (λ _ c,
    match c_op c with
    | OpList => listed [ {[ "ID" := VString "o1"; "ObjectID" := VString "o1";
                            "DisplayName" := VString name ]} ]
    | OpListMembers => ok ∅ [member]
    | _ => ok ∅ []
    end).

(** The attributes of the group member resource. *)
Definition groupMemberSchema : gmap string ValueType :=
  {[ "group_object_id" := TypeString; "member_object_id" := TypeString ]}.

(** A planned membership of [member] in [group]. *)
Definition membership (group member : string) : ResourceData :=
  mkResourceData "" groupMemberSchema ∅
    {[ "group_object_id" := VString group; "member_object_id" := VString member ]} ∅.

(** The payload the MS Graph update sends for [renamedApplication]
    below. *)
Definition renamedPayload : Object :=
  list_to_map
    [ ("ID", VString "a1"); ("DisplayName", VString "app2");
      ("IdentifierUris", VStrings []); ("OptionalClaims", VBlocks []);
      ("RequiredResourceAccess", VBlocks []); ("SignInAudience", VString "AzureADMyOrg");
      ("Web.ImplicitGrantSettings.EnableAccessTokenIssuance", VBool false);
      ("Web.LogoutUrl", VString "https://app/out") ].

(** A tracked application "a1" whose name alone is changed. *)
Definition renamedApplication : ResourceData :=
  mkResourceData "a1" applicationSchema
    {[ "name" := VString "app"; "type" := VString "webapp/api"; "logout_url" := VString "https://app/out" ]}
    {[ "name" := VString "app2"; "type" := VString "webapp/api"; "logout_url" := VString "https://app/out" ]}
    ∅.

(** A group planned under the name "team" with the duplicate-name guard
    on. *)
Definition guardedGroup : ResourceData :=
  mkResourceData "" groupSchema ∅
    {[ "name" := VString "team"; "prevent_duplicate_names" := VBool true ]} ∅.



(** A backend whose create calls succeed and return an object without
    ID. *)
Definition withoutId (msGraph : bool) : Env := backend msGraph (λ _ _, ok ∅ []).



End Examples.

(** * Properties *)

#[local] Set Warnings "-clear-no-such-hyp".

(** Symbolic execution of a function body: the combinators are unfolded,
    the attribute and field lookups are left alone. *)
Ltac run :=
  cbv beta iota zeta delta
    [bind next ret panic check when invoke getD putD request call
     setOrReturn tfSet deref onBackend genUUID returned fst snd
     aadgraph.listIds aadgraph.GroupAllOwners aadgraph.GroupAllMembers
     aadgraph.ApplicationAllOwners aadgraph.findByName
     aadgraph.GroupFindByName aadgraph.ApplicationFindByName
     aadgraph.GroupRemoveMember NotFound hasError tf.ErrorDiagF tf.ErrorDiagPathF
     tf.ImportAsDuplicateDiag tf.ImportAsExistsDiag];
  cbn [rd log].

(** Case analysis on an innermost scrutinee of the goal. *)
Ltac inner_case :=
  match goal with
  | |- context [match ?x with _ => _ end] =>
      lazymatch x with
      | context [match _ with _ => _ end] => fail
      | _ => destruct x eqn:?
      end
  end.

(** ** Reconciliation *)

Lemma elem_of_Difference (x : string) (a b : list string) :
  x ∈ utils.Difference a b ↔ x ∈ a ∧ x ∉ b.
Proof. unfold utils.Difference. rewrite list_elem_of_filter. tauto. Qed.

Lemma Difference_nil (a b : list string) :
  utils.Difference a b = [] ↔ ∀ x, x ∈ a → x ∈ b.
Proof.
  unfold utils.Difference. induction a as [|y a IH]; simpl.
  - split; [intros _ x Hx; inversion Hx | done].
  - rewrite filter_cons. destruct (decide (y ∉ b)) as [Hy|Hy].
    + split; [done|]. intros H. exfalso. apply Hy, H. left.
    + rewrite IH. split.
      * intros H x Hx. apply elem_of_cons in Hx as [->|Hx]; [|by apply H].
        by destruct (decide (y ∈ b)).
      * intros H x Hx. apply H. by right.
Qed.

Lemma Difference_self (a : list string) : utils.Difference a a = [].
Proof. by apply Difference_nil. Qed.

Lemma ids_Difference (a b : list string) :
  ids (utils.Difference a b) = ids a ∖ ids b.
Proof.
  apply set_eq. intros x. unfold ids.
  rewrite elem_of_difference, !elem_of_list_to_set, elem_of_Difference. done.
Qed.

(** C1: for all slices [existing] and [desired], the reconciliation yields
    toAdd = desired \ existing and toRemove = existing \ desired as sets;
    applying them to [existing] gives [desired], the two are disjoint,
    toAdd is disjoint from [existing] and toRemove from [desired]. *)
Theorem reconcile_correct (existing desired : list string) :
  let toAdd := (reconcile existing desired).1 in
  let toRemove := (reconcile existing desired).2 in
  ids toAdd = ids desired ∖ ids existing
  ∧ ids toRemove = ids existing ∖ ids desired
  ∧ (ids existing ∪ ids toAdd) ∖ ids toRemove = ids desired
  ∧ ids toAdd ∩ ids toRemove = ∅
  ∧ ids toAdd ## ids existing
  ∧ ids toRemove ## ids desired.
Proof.
  unfold reconcile; simpl. rewrite !ids_Difference.
  repeat split.
  - apply set_eq. intros x.
    destruct (decide (x ∈ ids existing)); destruct (decide (x ∈ ids desired)); set_solver.
  - set_solver.
  - set_solver.
  - set_solver.
Qed.

Lemma Difference_same_ids (a b : list string) :
  ids a = ids b → utils.Difference a b = [] ∧ utils.Difference b a = [].
Proof.
  intros H. split; apply Difference_nil; intros x Hx;
    apply (elem_of_list_to_set (C := gset string)); 
    apply (elem_of_list_to_set (C := gset string)) in Hx; unfold ids in H; congruence.
Qed.

(** C6: reconciling a set against itself yields no identifier to add and
    none to remove; and when the identifiers the backend lists are those
    desired, the reconciling functions issue the listing call and neither
    an add nor a remove call. *)
Theorem reconcile_idempotent (env : Env) (w : World) (existing desired : list string)
    (Hsame : ids existing = ids desired) :
  reconcile desired desired = ([], [])
  ∧ reconcile existing desired = ([], [])
  ∧ (∀ id, let c := mkCall AadGraph Applications OpListOwners id ∅ [] in
       answered env w c existing →
       applications.applicationSetOwnersTo env id desired w
       = (Ret None, mkWorld (rd w) (log w ++ [c])))
  ∧ (∀ app id, let c := mkCall MsGraph Applications OpListOwners id ∅ [] in
       getStr app "ID" = Some id → answered env w c existing →
       msgraph.ApplicationSetOwners env app desired w
       = (Ret None, mkWorld (rd w) (log w ++ [c])))
  ∧ (∀ key listOp removeOp addOp m1 m2 m3 group id,
       let c := mkCall MsGraph Groups listOp id ∅ [] in
       getStr group "ID" = Some id →
       schema.GetOkExists (rd w) key = Some (VStrings desired) →
       schema.HasChange (rd w) key = true →
       answered env w c existing →
       groups.updateRelationMsGraph env key listOp removeOp addOp m1 m2 m3 group w
       = (Next group, mkWorld (rd w) (log w ++ [c]))).
Proof.
  destruct (Difference_same_ids _ _ Hsame) as [Hrem Hadd].
  destruct (Difference_same_ids desired desired eq_refl) as [Hself _].
  unfold reconcile. rewrite Hrem, Hadd, Hself.
  split; [done|split; [done|split; [|split]]].
  - intros id [Herr Hids].
    unfold applications.applicationSetOwnersTo, aadgraph.ApplicationAddOwners. run.
    rewrite Herr, Hids, Hrem, Hadd. reflexivity.
  - intros app id Hid [Herr Hids].
    unfold msgraph.ApplicationSetOwners. rewrite Hid. run.
    rewrite Herr, Hids, Hrem, Hadd. reflexivity.
  - intros key listOp removeOp addOp m1 m2 m3 group id Hid Hget Hch [Herr Hids].
    unfold groups.updateRelationMsGraph. run.
    rewrite Hget, Hch, Hid, Herr, Hids. unfold ExpandStringSlice.
    rewrite Hrem, Hadd. reflexivity.
Qed.

Lemma reconcile_idempotent_witness :
  let env := Examples.groupWithOwnersAB false in
  let w := mkWorld Examples.trackedGroup [] in
  let c := mkCall AadGraph Applications OpListOwners "a1" ∅ [] in
  ids ["A"; "B"] = ids ["B"; "A"]
  ∧ answered env w c ["A"; "B"]
  ∧ applications.applicationSetOwnersTo env "a1" ["B"; "A"] w = (Ret None, mkWorld (rd w) [c]).
Proof.
  assert (H : ids ["A"; "B"] = ids ["B"; "A"]) by (vm_compute; reflexivity).
  split; [exact H|]. split; [split; reflexivity|].
  apply (reconcile_idempotent (Examples.groupWithOwnersAB false)
           (mkWorld Examples.trackedGroup []) ["A"; "B"] ["B"; "A"] H).
  split; reflexivity.
Defined.

(** ** Deleting an application *)

(** The AAD Graph handler, which the application resource registers:
    deleting an application whose [available_to_other_tenants] is set
    first patches the flag to false and issues the delete call only after
    the patch has succeeded (a failed patch is returned and nothing is
    deleted); when the flag is not set the delete call is the only call. *)
Theorem application_delete_clears_flag_first (env : Env) (w : World) :
  let id := schema.Id (rd w) in
  let patch := mkCall AadGraph Applications OpPatch id {[ "AvailableToOtherTenants" := VBool false ]} [] in
  let delete := mkCall AadGraph Applications OpDelete id ∅ [] in
  let out := applications.applicationResourceDelete env w in
  if schema.GetBool (rd w) "available_to_other_tenants" then
    match r_err (respond env (log w) patch) with
    | Some e =>
        log out.2 = log w ++ [patch]
        ∧ out.1 = Ret (tf.ErrorDiagF (Some e) "Updating Application with object ID %q" [id])
    | None => log out.2 = log w ++ [patch; delete]
    end
  else log out.2 = log w ++ [delete].
Proof.
  unfold applications.applicationResourceDelete. run.
  repeat inner_case; simpl; rewrite <- ?app_assoc; done.
Qed.

(** C9 (the code departs from the claim): the MS Graph delete handler of
    the application returns nil for the tracked application "a1", whose
    [available_to_other_tenants] is set, without issuing any call: neither
    the update that clears the flag nor the delete call. The AAD Graph
    handler, on the same resource data, patches the flag and then
    deletes. *)
Theorem application_delete_msgraph_issues_no_call :
  let w := mkWorld Examples.sharedApplication [] in
  schema.GetBool (rd w) "available_to_other_tenants" = true
  ∧ applications.applicationResourceDeleteMsGraph w = (Ret [], w)
  ∧ Delete (Examples.withoutId true) ApplicationMs w = (Ret [], w)
  ∧ (applications.applicationResourceDelete (Examples.withoutId false) w).1 = Ret []
  ∧ Examples.summary (log (applications.applicationResourceDelete (Examples.withoutId false) w).2)
    = [(AadGraph, OpPatch, "a1", []); (AadGraph, OpDelete, "a1", [])].
Proof. repeat split; vm_compute; reflexivity. Qed.

(** ** Deleting an object the backend does not know *)

(** The AAD Graph handlers of groups and service principals, and of an
    application that is not available to other tenants, swallow a not-found
    answer to the delete call. *)
Lemma delete_not_found_tolerated (env : Env) (r : Resource) (w : World) :
  r = GroupAad ∨ r = ServicePrincipal
  ∨ (r = ApplicationAad ∧ schema.GetBool (rd w) "available_to_other_tenants" = false) →
  NotFound (respond env (log w) (callOn r OpDelete (schema.Id (rd w)))) = true →
  (Delete env r w).1 = Ret [].
Proof.
  intros Hr Hnf. unfold NotFound in Hnf.
  destruct Hr as [->|[->|[-> Hflag]]]; simpl in *;
    [unfold groups.groupResourceDeleteAadGraph
    |unfold serviceprincipals.servicePrincipalResourceDelete
    |unfold applications.applicationResourceDelete];
    unfold callOn in Hnf; simpl in Hnf; run; rewrite ?Hflag, Hnf; simpl;
    by destruct (r_err _).
Qed.

(** The MS Graph group handler returns every error of the delete call,
    whatever the status. *)
Lemma group_delete_msgraph_returns_error (env : Env) (w : World) (e : error) :
  r_err (respond env (log w) (callOn GroupMs OpDelete (schema.Id (rd w)))) = Some e →
  (groups.groupResourceDeleteMsGraph env w).1
  = Ret (tf.ErrorDiagF (Some e) "Deleting group with object ID: %q" [schema.Id (rd w)]).
Proof.
  intros He. unfold groups.groupResourceDeleteMsGraph, callOn in *. simpl in He.
  run. by rewrite He.
Qed.

(** C3 (the code departs from the claim): deleting the tracked group "g1"
    through the MS Graph handler when the backend answers the delete call
    404 Not Found returns an error diagnostic instead of nil; the AAD Graph
    handler on the same backend returns nil. *)
Theorem group_delete_not_found_msgraph_fails :
  returned (groups.groupResourceDelete (Examples.emptyDirectory true)
              (mkWorld Examples.trackedGroup []))
  = Some [ErrorDiag (Some (BackendError "404 Not Found")) None
            "Deleting group with object ID: %q" ["g1"]]
  ∧ returned (groups.groupResourceDelete (Examples.emptyDirectory false)
                (mkWorld Examples.trackedGroup []))
    = Some [].
Proof. split; vm_compute; reflexivity. Qed.

(** Deleting an application that is available to other tenants fails in
    the same way when the object is already gone: the patch that clears the
    flag is answered not-found and its error is returned. *)
Example application_delete_not_found_patch_fails :
  returned (applications.applicationResourceDelete (Examples.emptyDirectory false)
              (mkWorld Examples.sharedApplication []))
  = Some [ErrorDiag (Some (BackendError "404 Not Found")) None
            "Updating Application with object ID %q" ["a1"]].
Proof. vm_compute. reflexivity. Qed.

(** ** The order of additions and removals *)

(** C2 (the code departs from the claim): updating the owners of the group
    "g1" from {A, B} to {B, C} issues the remove call for A before the add
    call for C, on the MS Graph handler and on the AAD Graph handler. *)
Theorem group_owners_removed_before_added :
  let ms := groups.groupResourceUpdate (Examples.groupWithOwnersAB true)
              (mkWorld Examples.groupOwnersAB_BC []) in
  let aad := groups.groupResourceUpdate (Examples.groupWithOwnersAB false)
               (mkWorld Examples.groupOwnersAB_BC []) in
  ms.1 = Ret []
  ∧ Examples.summary (log ms.2)
    = [ (MsGraph, OpUpdate, "g1", []);
        (MsGraph, OpListOwners, "g1", []);
        (MsGraph, OpRemoveOwners, "g1", ["A"]);
        (MsGraph, OpAddOwners, "g1", ["C"]);
        (MsGraph, OpGet, "g1", []);
        (MsGraph, OpListOwners, "g1", []);
        (MsGraph, OpListMembers, "g1", []) ]
  ∧ aad.1 = Ret []
  ∧ Examples.summary (log aad.2)
    = [ (AadGraph, OpListOwners, "g1", []);
        (AadGraph, OpRemoveOwner, "g1", ["A"]);
        (AadGraph, OpAddOwner, "g1", ["C"]);
        (AadGraph, OpGet, "g1", []);
        (AadGraph, OpListMembers, "g1", []);
        (AadGraph, OpListOwners, "g1", []) ].
Proof. vm_compute. done. Qed.

(** The owners of an application are set in the same order by the MS Graph
    helper, and in the opposite order (additions first) by the AAD Graph
    function. *)
Example application_owners_order :
  Examples.summary (log (msgraph.ApplicationSetOwners (Examples.groupWithOwnersAB true)
                           {[ "ID" := VString "a1" ]} ["B"; "C"] (mkWorld Examples.trackedGroup [])).2)
  = [ (MsGraph, OpListOwners, "a1", []);
      (MsGraph, OpRemoveOwners, "a1", ["A"]);
      (MsGraph, OpAddOwners, "a1", ["C"]) ]
  ∧ Examples.summary (log (applications.applicationSetOwnersTo (Examples.groupWithOwnersAB false)
                             "a1" ["B"; "C"] (mkWorld Examples.trackedGroup [])).2)
    = [ (AadGraph, OpListOwners, "a1", []);
        (AadGraph, OpAddOwner, "a1", ["C"]);
        (AadGraph, OpRemoveOwner, "a1", ["A"]) ].
Proof. vm_compute. done. Qed.

(** ** Case sensitivity of the name and member checks *)

(** C8: there are two strings equal up to ASCII letter case that the group
    duplicate-name check and the group-member existence check treat as a
    match, and that the application duplicate-name lookup treats as
    distinct: it finds the application under its exact name only. *)
Theorem name_matching_inconsistent :
  ∃ s t : string,
    s ≠ t ∧ Strings.EqualFold s t = true
    ∧ let env := Examples.directoryWith t t in
      let w := mkWorld Examples.trackedGroup [] in
      returned (msgraph.GroupCheckNameAvailability env s None w) = Some (Some "o1", None)
      ∧ returned (groups.groupMemberResourceCreateAadGraph env
                    (mkWorld (Examples.membership "g1" s) []))
        = Some (tf.ImportAsExistsDiag "azuread_group_member" ("g1/member/" +:+ s))
      ∧ returned (msgraph.ApplicationFindByName env s w) = Some (None, None)
      ∧ ∃ app, returned (msgraph.ApplicationFindByName env t w) = Some (Some app, None).
Proof.
  exists "engineering", "Engineering".
  split; [discriminate|]. split; [reflexivity|].
  split; [vm_compute; reflexivity|]. split; [vm_compute; reflexivity|].
  split; [vm_compute; reflexivity|]. eexists. vm_compute. reflexivity.
Qed.

(** ** Reading an object *)

Ltac unfold_read :=
  unfold Read, groups.groupResourceReadAadGraph, groups.groupResourceReadMsGraph,
    applications.applicationResourceRead, applications.applicationResourceReadMsGraph,
    serviceprincipals.servicePrincipalResourceRead, callOn.

(** A read that returns nil has either been told that the object is absent,
    or had every one of its calls answered without error. *)
Lemma read_answers (env : Env) (r : Resource) (w : World) :
  let get := callOn r OpGet (schema.Id (rd w)) in
  let resp := respond env (log w) get in
  let out := Read env r w in
  ∃ issued, log out.2 = log w ++ issued
    ∧ (returned out = Some [] →
       (is_Some (r_err resp) ∧ NotFound resp = true)
       ∨ Forall (λ a, r_err a = None) (answers env (log w) issued)).
Proof.
  destruct r; unfold_read; simpl; run; repeat (inner_case; run).
  all: eexists; (split; [simpl; rewrite <- ?app_assoc; reflexivity|]).
  all: intros Hret; try discriminate Hret.
  all: try (left; split; [by eexists|first [reflexivity|assumption]]).
  all: right; simpl; repeat (apply Forall_cons; split; [assumption|]); done.
Qed.

(** C4: when the backend answers the get call of a read with an error, a
    not-found answer makes the handler clear the stored ID and return no
    diagnostics, and any other answer makes it return an error and leave
    the resource data alone; and a read that returns no diagnostics without
    a not-found answer had every backend call answered without error. *)
Theorem read_not_found_signals_absence (env : Env) (r : Resource) (w : World) :
  let get := callOn r OpGet (schema.Id (rd w)) in
  let resp := respond env (log w) get in
  let out := Read env r w in
  (∀ e, r_err resp = Some e →
     if NotFound resp
     then out = (Ret [], mkWorld (schema.SetId "" (rd w)) (log w ++ [get]))
     else ∃ dg, out = (Ret dg, mkWorld (rd w) (log w ++ [get])) ∧ hasError dg = true)
  ∧ ∃ issued, log out.2 = log w ++ issued
      ∧ (returned out = Some [] →
         (is_Some (r_err resp) ∧ NotFound resp = true)
         ∨ Forall (λ a, r_err a = None) (answers env (log w) issued)).
Proof.
  split; [|apply read_answers].
  intros e He. unfold NotFound, utils.ResponseWasNotFound.
  destruct r; unfold_read; unfold callOn in He; simpl in *; run;
    rewrite He; unfold utils.ResponseWasNotFound;
    destruct (r_status _ =? utils.StatusNotFound); eauto.
Qed.

Lemma read_not_found_signals_absence_witness :
  let env := Examples.emptyDirectory true in
  let w := mkWorld Examples.trackedGroup [] in
  r_err (respond env (log w) (callOn GroupMs OpGet "g1")) = Some (BackendError "404 Not Found")
  ∧ Read env GroupMs w
    = (Ret [], mkWorld (schema.SetId "" Examples.trackedGroup) [callOn GroupMs OpGet "g1"]).
Proof.
  split; [reflexivity|].
  exact (proj1 (read_not_found_signals_absence (Examples.emptyDirectory true) GroupMs
                  (mkWorld Examples.trackedGroup []))
           (BackendError "404 Not Found") eq_refl).
Defined.

(** ** Update payloads *)

Lemma insert_is_Some (k : string) (v : Value) (o : Object) (field : string) :
  is_Some (<[k := v]> o !! field) → field = k ∨ is_Some (o !! field).
Proof.
  destruct (decide (k = field)) as [->|Hne]; [by left|].
  rewrite lookup_insert_ne by done. by right.
Qed.

Lemma singleton_is_Some (k : string) (v : Value) (field : string) :
  is_Some (({[ k := v ]} : Object) !! field) → field = k.
Proof.
  destruct (decide (k = field)) as [->|Hne]; [done|].
  rewrite lookup_singleton_ne by done. by intros [? ?].
Qed.

Lemma setWhen_is_Some (c : bool) (k : string) (v : Value) (o : Object) (field : string) :
  is_Some (setWhen c k v o !! field) → (c = true ∧ field = k) ∨ is_Some (o !! field).
Proof.
  unfold setWhen. destruct c; [|by right].
  intros [->|H]%insert_is_Some; [by left|by right].
Qed.

Lemma empty_is_Some (field : string) : ¬ is_Some ((∅ : Object) !! field).
Proof. rewrite lookup_empty. by intros [? ?]. Qed.

Lemma delete_is_Some (k : string) (o : Object) (field : string) :
  is_Some (delete k o !! field) → is_Some (o !! field).
Proof.
  destruct (decide (k = field)) as [->|Hne].
  - rewrite lookup_delete_eq. by intros [? ?].
  - by rewrite lookup_delete_ne.
Qed.

Lemma insert_here (k : string) (v : Value) (o : Object) : is_Some (<[k := v]> o !! k).
Proof. rewrite lookup_insert_eq. by eexists. Qed.

Lemma singleton_here (k : string) (v : Value) : is_Some (({[ k := v ]} : Object) !! k).
Proof. rewrite lookup_singleton_eq. by eexists. Qed.

Lemma insert_keeps (k : string) (v : Value) (o : Object) (field : string) :
  is_Some (o !! field) → is_Some (<[k := v]> o !! field).
Proof.
  intros H. destruct (decide (k = field)) as [->|Hne]; [apply insert_here|].
  by rewrite lookup_insert_ne.
Qed.

Lemma setWhen_keeps (c : bool) (k : string) (v : Value) (o : Object) (field : string) :
  is_Some (o !! field) → is_Some (setWhen c k v o !! field).
Proof. unfold setWhen. destruct c; [apply insert_keeps|done]. Qed.

Lemma delete_keeps (k : string) (o : Object) (field : string) :
  k ≠ field → is_Some (o !! field) → is_Some (delete k o !! field).
Proof. intros Hne. by rewrite lookup_delete_ne. Qed.

(** Decomposes [H : is_Some (payload !! field)] along the assignments that
    built the payload. *)
Ltac payload_cases H :=
  repeat match type of H with
    | is_Some (setWhen _ _ _ _ !! _) => apply setWhen_is_Some in H as [[? ->]|H]
    | is_Some (<[_ := _]> _ !! _) => apply insert_is_Some in H as [->|H]
    | is_Some (delete _ _ !! _) => apply delete_is_Some in H
    | is_Some ({[ _ := _ ]} !! _) => apply singleton_is_Some in H as ->
    | is_Some (∅ !! _) => apply empty_is_Some in H; destruct H
    end.

(** Membership of a literal in a literal list. *)
Ltac member := repeat first [apply list_elem_of_here | apply list_elem_of_further].

Ltac changed_field :=
  match goal with
  | H : schema.HasChange ?d ?a = true |- changed ?d _ =>
      exists a; split; [vm_compute; solve [member] | exact H]
  end.

(** Proves that a field assigned by the payload is present in it. *)
Ltac sent :=
  repeat match goal with
    | |- is_Some (<[?k := _]> _ !! ?k) => apply insert_here
    | |- is_Some (<[_ := _]> _ !! _) => apply insert_keeps
    | |- is_Some (setWhen _ _ _ _ !! _) => apply setWhen_keeps
    | |- is_Some (delete _ _ !! _) => apply delete_keeps; [discriminate|]
    | |- is_Some ({[ ?k := _ ]} !! ?k) => apply singleton_here
    end.

Lemma service_principal_payload (d : ResourceData) :
  onlyChanged d (serviceprincipals.servicePrincipalUpdateParameters d).
Proof.
  intros field H. unfold serviceprincipals.servicePrincipalUpdateParameters in H.
  destruct (schema.HasChange d "tags") eqn:Htags; [destruct (schema.GetOk d "tags")|];
    payload_cases H; right; changed_field.
Qed.

Lemma group_payload (d : ResourceData) : onlyChanged d (groups.groupUpdateProperties d).
Proof.
  intros field H. unfold groups.groupUpdateProperties in H.
  payload_cases H; [right; changed_field..|by left].
Qed.

Lemma application_payload (d : ResourceData) (p : Object) :
  applications.applicationUpdateParameters d = Some p → onlyChanged d p.
Proof.
  unfold applications.applicationUpdateParameters. intros Hp field H.
  destruct (schema.HasChange d "type") eqn:Htype;
    [destruct (Strings.eqs (schema.GetString d "type") "webapp/api");
       [|destruct (Strings.eqs (schema.GetString d "type") "native"); [|discriminate]]|];
    injection Hp as <-; payload_cases H; right; changed_field.
Qed.

Lemma changedDisplayName_changed (d : ResourceData) :
  negb (Strings.eqs (applications.changedDisplayName d) "") = true → changed d "DisplayName".
Proof.
  unfold applications.changedDisplayName.
  destruct (schema.HasChange d "display_name") eqn:H1; [intros _; changed_field|].
  destruct (schema.HasChange d "name") eqn:H2; [intros _; changed_field|].
  discriminate.
Qed.

Lemma application_msgraph_payload (d : ResourceData) (p : Object) :
  applications.applicationUpdateMsGraph d = Some p →
  (∀ field, field ∈ alwaysSent → is_Some (p !! field))
  ∧ (∀ field, is_Some (p !! field) → field ∈ alwaysSent ∨ changed d field).
Proof.
  unfold applications.applicationUpdateMsGraph. intros Hp.
  destruct (schema.HasChange d "type") eqn:Htype;
    [destruct (Strings.eqs (schema.GetString d "type") "webapp/api");
       [|destruct (Strings.eqs (schema.GetString d "type") "native"); [|discriminate]]|];
    injection Hp as <-;
    destruct (schema.HasChange d "group_membership_claims") eqn:Hgmc;
    try destruct (schema.GetOk d "group_membership_claims").
  all: split;
    [ intros field Hin; unfold alwaysSent in Hin;
      repeat (apply elem_of_cons in Hin as [->|Hin]); [sent..|by apply elem_of_nil in Hin]
    | intros field H; payload_cases H;
      first [ left; unfold alwaysSent; solve [member]
            | right; by apply changedDisplayName_changed
            | right; changed_field ] ].
Qed.

(** C5, as the claim states it, fails: when the name of an application is
    the only change, the payload of the MS Graph update also carries the
    logout URL (and the other fields of its struct literal), which has not
    changed. *)
Lemma update_payload_counterexample :
  applications.applicationUpdateMsGraph Examples.renamedApplication
  = Some Examples.renamedPayload
  ∧ ¬ onlyChanged Examples.renamedApplication Examples.renamedPayload.
Proof.
  split; [reflexivity|].
  intros H. destruct (H "Web.LogoutUrl") as [Heq|(a & Ha & Hch)].
  - vm_compute. by eexists.
  - discriminate Heq.
  - vm_compute in Ha. apply list_elem_of_singleton in Ha as ->.
    vm_compute in Hch. discriminate Hch.
Qed.

(** On the same input the AAD Graph update sends the display name alone. *)
Example update_payload_aad_renamed :
  applications.applicationUpdateParameters Examples.renamedApplication
  = Some {[ "DisplayName" := VString "app2" ]}.
Proof. reflexivity. Qed.

(** C5, amended: the payloads of the service principal update, of the MS
    Graph group update and of the AAD Graph application update hold, next
    to the object ID, only fields with a detected change; the payload of
    the MS Graph application update always holds the fields of its struct
    literal, and any other field only with a detected change. *)
Theorem update_payload_changed_fields (d : ResourceData) :
  onlyChanged d (serviceprincipals.servicePrincipalUpdateParameters d)
  ∧ onlyChanged d (groups.groupUpdateProperties d)
  ∧ match applications.applicationUpdateParameters d with
    | Some p => onlyChanged d p
    | None => True
    end
  ∧ match applications.applicationUpdateMsGraph d with
    | Some p =>
        (∀ field, field ∈ alwaysSent → is_Some (p !! field))
        ∧ (∀ field, is_Some (p !! field) → field ∈ alwaysSent ∨ changed d field)
    | None => True
    end.
Proof.
  split; [apply service_principal_payload|].
  split; [apply group_payload|].
  split.
  - destruct (applications.applicationUpdateParameters d) eqn:E; [|done].
    by apply application_payload.
  - destruct (applications.applicationUpdateMsGraph d) eqn:E; [|done].
    by apply application_msgraph_payload.
Qed.

(** ** The duplicate-name guard of Create *)

Lemma EqualFold_refl (s : string) : Strings.EqualFold s s = true.
Proof.
  induction s as [|c s IH]; simpl; [done|].
  rewrite IH, andb_true_r. apply Ascii.eqb_refl.
Qed.

(** A loop whose body returns at the elements that satisfy [P] and goes on
    at the others returns at the first element that satisfies [P]. *)
Lemma forRange_first {R A} (l : list A) (body : A → Fn R unit) (P : A → Prop)
    (res : A → R) (w : World) :
  (∀ x, x ∈ l → (P x ∧ body x w = (Ret (res x), w)) ∨ (¬ P x ∧ body x w = (Next tt, w))) →
  Exists P l →
  ∃ x, x ∈ l ∧ P x ∧ forRange l body w = (Ret (res x), w).
Proof.
  induction l as [|y l IH]; intros Hbody Hex.
  - by apply Exists_nil in Hex.
  - simpl. unfold bind.
    destruct (Hbody y) as [[Hy Heq]|[Hy Heq]]; [left| |]; rewrite Heq.
    + exists y. split; [left|done].
    + apply Exists_cons in Hex as [?|Hex]; [done|].
      destruct IH as (x & Hx & HP & Hloop); [|done|].
      * intros x Hx. apply Hbody. by right.
      * exists x. split; [by right|done].
Qed.

Lemma GroupCheckNameAvailability_finds (env : Env) (name : string) (w : World) :
  r_err (respond env (log w) (listCall GroupMs name)) = None →
  Forall (directoryObject GroupMs) (r_objs (respond env (log w) (listCall GroupMs name))) →
  Exists (λ o, getStr o "DisplayName" = Some name)
    (r_objs (respond env (log w) (listCall GroupMs name))) →
  ∃ id, msgraph.GroupCheckNameAvailability env name None w
        = (Ret (Some id, None), mkWorld (rd w) (log w ++ [listCall GroupMs name])).
Proof.
  unfold listCall, directoryObject. simpl. intros Herr Hwf Hex.
  unfold msgraph.GroupCheckNameAvailability. run. rewrite Herr.
  match goal with |- context [forRange ?l ?b ?w'] =>
    destruct (forRange_first l b
                (λ o, ∃ n, getStr o "DisplayName" = Some n ∧ Strings.EqualFold name n = true)
                (λ o, (getStr o "ID", None)) w') as (o & Ho & _ & ->)
  end.
  - intros o Ho. rewrite Forall_forall in Hwf. destruct (Hwf o Ho) as [_ [n Hn]].
    rewrite Hn. destruct (Strings.EqualFold name n) eqn:E.
    + left. split; [by exists n|done].
    + right. split; [|done]. intros (n' & Hn' & E'). congruence.
  - eapply Exists_impl; [exact Hex|]. intros o Ho. exists name. split; [done|apply EqualFold_refl].
  - rewrite Forall_forall in Hwf. destruct (Hwf o Ho) as [[id Hid] _].
    exists id. unfold idField in Hid. simpl in Hid. by rewrite Hid.
Qed.

Lemma ApplicationFindByName_finds (env : Env) (name : string) (w : World) :
  r_err (respond env (log w) (listCall ApplicationMs name)) = None →
  Exists (λ o, getStr o "DisplayName" = Some name)
    (r_objs (respond env (log w) (listCall ApplicationMs name))) →
  ∃ app, msgraph.ApplicationFindByName env name w
         = (Ret (Some app, None), mkWorld (rd w) (log w ++ [listCall ApplicationMs name])).
Proof.
  unfold listCall. simpl. intros Herr Hex.
  unfold msgraph.ApplicationFindByName. run. rewrite Herr.
  match goal with |- context [forRange ?l ?b ?w'] =>
    destruct (forRange_first l b (λ o, getStr o "DisplayName" = Some name)
                (λ o, (Some o, None)) w') as (o & Ho & _ & ->)
  end.
  - intros o Ho. destruct (getStr o "DisplayName") as [n|] eqn:Hn.
    + unfold Strings.eqs. case_bool_decide; [left|right]; split; congruence.
    + right. split; congruence.
  - exact Hex.
  - by exists o.
Qed.

Lemma find_Exists {A} (f : A → bool) (l : list A) :
  Exists (λ x, f x = true) l → is_Some (find f l).
Proof.
  induction l as [|y l IH]; intros Hex; [by apply Exists_nil in Hex|].
  simpl. destruct (f y) eqn:E; [by eexists|].
  apply Exists_cons in Hex as [?|?]; [congruence|by apply IH].
Qed.

(** X1: with [prevent_duplicate_names] set, when the listing of the guard
    succeeds and holds an object with the display name of the new object,
    Create returns the duplicate diagnostic for an existing ID; the listing
    call is the only call it has issued (no create call) and the resource
    data is untouched. *)
Theorem create_rejects_duplicate_name (env : Env) (r : Resource) (w : World) :
  r ≠ ServicePrincipal →
  schema.GetBool (rd w) "prevent_duplicate_names" = true →
  let name := createName r (rd w) in
  let c := listCall r name in
  r_err (respond env (log w) c) = None →
  Forall (directoryObject r) (r_objs (respond env (log w) c)) →
  Exists (λ o, getStr o "DisplayName" = Some name) (r_objs (respond env (log w) c)) →
  ∃ id, Create env r w
        = (Ret (tf.ImportAsDuplicateDiag (resourceName r) id name),
           mkWorld (rd w) (log w ++ [c])).
Proof.
  intros Hr Hprevent name c Herr Hwf Hex. subst name c.
  destruct r; [| | | |done]; simpl in *.
  - (* AAD Graph group *)
    unfold groups.groupResourceCreateAadGraph, listCall in *; simpl in *. run.
    rewrite Hprevent, Herr.
    match goal with |- context [find ?f ?l] => destruct (find_Exists f l) as [o ->] end.
    { eapply Exists_impl; [exact Hex|]. intros o Ho. by apply bool_decide_eq_true. }
    destruct (getStr o "ObjectID"); eauto.
  - (* MS Graph group *)
    unfold groups.groupResourceCreateMsGraph. run. rewrite Hprevent.
    destruct (GroupCheckNameAvailability_finds env _ w Herr Hwf Hex) as [id ->].
    eauto.
  - (* AAD Graph application *)
    unfold applications.applicationResourceCreate, applications.duplicateGuardAad, listCall in *;
      simpl in *. run.
    rewrite Hprevent, Herr.
    match goal with |- context [find ?f ?l] => destruct (find_Exists f l) as [o ->] end.
    { eapply Exists_impl; [exact Hex|]. intros o Ho. by apply bool_decide_eq_true. }
    destruct (getStr o "ObjectID"); eauto.
  - (* MS Graph application *)
    unfold applications.applicationResourceCreateMsGraph. run. rewrite Hprevent.
    destruct (ApplicationFindByName_finds env _ w Herr Hex) as [app ->].
    destruct (getStr app "ID"); eauto.
Qed.

Lemma create_rejects_duplicate_name_witness :
  let env := Examples.directoryWith "team" "m" in
  let w := mkWorld Examples.guardedGroup [] in
  schema.GetBool (rd w) "prevent_duplicate_names" = true
  ∧ r_err (respond env (log w) (listCall GroupMs "team")) = None
  ∧ ∃ id, Create env GroupMs w
          = (Ret (tf.ImportAsDuplicateDiag "azuread_group" id "team"),
             mkWorld (rd w) [listCall GroupMs "team"]).
Proof.
  split; [reflexivity|]. split; [reflexivity|].
  apply (create_rejects_duplicate_name (Examples.directoryWith "team" "m") GroupMs
           (mkWorld Examples.guardedGroup [])).
  - discriminate.
  - reflexivity.
  - reflexivity.
  - apply Forall_cons. split; [|by apply Forall_nil].
    split; eexists; reflexivity.
  - apply Exists_cons. left. reflexivity.
Defined.

(** C7: for every Create that has the duplicate-name guard (groups and
    applications, on either API) and has it enabled, when the listing of
    the guard succeeds and holds an object of the same type with the
    display name of the new object, Create returns the duplicate
    diagnostic, which is an error, and none of the calls it has issued is
    a create call; the resource data is as before. For the MS Graph group
    handler, which dereferences the ID and the display name of every
    listed group, the listed groups are taken to have both. *)
Theorem create_with_guard_rejects_duplicate (env : Env) (r : Resource) (w : World) :
  r ≠ ServicePrincipal →
  schema.GetBool (rd w) "prevent_duplicate_names" = true →
  let name := createName r (rd w) in
  let listing := respond env (log w) (listCall r name) in
  r_err listing = None →
  (r = GroupMs → Forall (directoryObject r) (r_objs listing)) →
  Exists (λ o, getStr o "DisplayName" = Some name) (r_objs listing) →
  let out := Create env r w in
  (∃ id, out.1 = Ret (tf.ImportAsDuplicateDiag (resourceName r) id name))
  ∧ (∀ dg, out.1 = Ret dg → hasError dg = true)
  ∧ (∃ issued, log out.2 = log w ++ issued ∧ Forall (λ c, c_op c ≠ OpCreate) issued)
  ∧ rd out.2 = rd w.
Proof.
  intros Hr Hprevent name listing Herr Hwf Hex out.
  assert (∃ id, out = (Ret (tf.ImportAsDuplicateDiag (resourceName r) id name),
                       mkWorld (rd w) (log w ++ [listCall r name]))) as [id Hout].
  { subst name listing out. destruct r; [| | | |done]; simpl in *.
    - unfold groups.groupResourceCreateAadGraph, listCall in *; simpl in *. run.
      rewrite Hprevent, Herr.
      match goal with |- context [find ?f ?l] => destruct (find_Exists f l) as [o ->] end.
      { eapply Exists_impl; [exact Hex|]. intros o Ho. by apply bool_decide_eq_true. }
      destruct (getStr o "ObjectID"); eauto.
    - unfold groups.groupResourceCreateMsGraph. run. rewrite Hprevent.
      destruct (GroupCheckNameAvailability_finds env _ w Herr (Hwf eq_refl) Hex) as [id ->].
      eauto.
    - unfold applications.applicationResourceCreate, applications.duplicateGuardAad, listCall in *;
        simpl in *. run.
      rewrite Hprevent, Herr.
      match goal with |- context [find ?f ?l] => destruct (find_Exists f l) as [o ->] end.
      { eapply Exists_impl; [exact Hex|]. intros o Ho. by apply bool_decide_eq_true. }
      destruct (getStr o "ObjectID"); eauto.
    - unfold applications.applicationResourceCreateMsGraph. run. rewrite Hprevent.
      destruct (ApplicationFindByName_finds env _ w Herr Hex) as [app ->].
      destruct (getStr app "ID"); eauto. }
  rewrite Hout. simpl. split; [by exists id|]. split; [by intros dg [= <-]|].
  split; [|done]. eexists. split; [done|]. apply Forall_cons. split; [|by apply Forall_nil].
  by destruct r.
Qed.

Lemma create_with_guard_rejects_duplicate_witness :
  let env := Examples.directoryWith "team" "m" in
  let w := mkWorld Examples.guardedGroup [] in
  let out := Create env GroupMs w in
  (∃ id, out.1 = Ret (tf.ImportAsDuplicateDiag "azuread_group" id "team"))
  ∧ (∀ dg, out.1 = Ret dg → hasError dg = true)
  ∧ (∃ issued, log out.2 = log w ++ issued ∧ Forall (λ c, c_op c ≠ OpCreate) issued)
  ∧ rd out.2 = rd w.
Proof.
  apply (create_with_guard_rejects_duplicate (Examples.directoryWith "team" "m") GroupMs
           (mkWorld Examples.guardedGroup [])).
  - discriminate.
  - reflexivity.
  - reflexivity.
  - intros _. apply Forall_cons. split; [|by apply Forall_nil]. split; eexists; reflexivity.
  - apply Exists_cons. left. reflexivity.
Defined.

(** ** The stored ID *)

Section Within.
Context (S : string → Prop).

Lemma within_idle {R A} (f : Fn R A) : idle f → within S f.
Proof. intros H w Hw. by rewrite H. Qed.

Lemma within_bind {R A B} (m : Fn R A) (k : A → Fn R B) :
  within S m → (∀ a, within S (k a)) → within S (bind m k).
Proof.
  intros Hm Hk w Hw. unfold bind. specialize (Hm w Hw).
  destruct (m w) as [[a|r|] w']; simpl in *; [by apply Hk|done|done].
Qed.

Lemma within_next {R A} (a : A) : within S (next a : Fn R A).
Proof. by intros w. Qed.

Lemma within_ret {R A} (r : R) : within S (ret r : Fn R A).
Proof. by intros w. Qed.

Lemma within_panic {R A} : within S (panic : Fn R A).
Proof. by intros w. Qed.

Lemma within_getD {R} : within S (getD : Fn R ResourceData).
Proof. by intros w. Qed.

Lemma within_check {R} (e : option error) (mk : error → R) : within S (check e mk).
Proof. destruct e; by intros w. Qed.

Lemma within_bind_check {R B} (e : option error) (mk : error → R) (k : unit → Fn R B) :
  (e = None → within S (k tt)) → within S (bind (check e mk) k).
Proof. intros Hk. destruct e; [by intros w|]. intros w Hw. by apply Hk. Qed.

Lemma within_deref {R A} (p : option A) : within S (deref p : Fn R A).
Proof. destruct p; by intros w. Qed.

Lemma within_genUUID {R} (env : Env) : within S (genUUID env : Fn R _).
Proof. by intros w. Qed.

Lemma within_onBackend {R A} (f : list Call → A * list Call) : within S (onBackend f : Fn R A).
Proof. intros w Hw. unfold onBackend. by destruct (f (log w)). Qed.

Lemma within_when {R} (c : bool) (body : Fn R unit) : within S body → within S (when c body).
Proof. destruct c; [done|by intros _ w]. Qed.

Lemma within_forRange {R A} (l : list A) (body : A → Fn R unit) :
  (∀ x, within S (body x)) → within S (forRange l body).
Proof.
  intros Hbody. induction l as [|x l IH]; simpl; [by intros w|].
  apply within_bind; [apply Hbody|by intros _].
Qed.

Lemma within_invoke {R R'} (f : Fn R R) : within S f → within S (invoke f : Fn R' R).
Proof.
  intros Hf w Hw. unfold invoke. specialize (Hf w Hw).
  by destruct (f w) as [[a|r|] w'].
Qed.

(** The continuation of a call learns that its argument is an answer of
    the backend to that call. *)
Lemma within_bind_request {R B} (env : Env) api svc op target payload l (k : Response → Fn R B) :
  (∀ pre resp, resp = respond env pre (mkCall api svc op target payload l) → within S (k resp)) →
  within S (bind (request env api svc op target payload l) k).
Proof. intros Hk w Hw. unfold bind, request, call. by eapply Hk. Qed.

Lemma within_request {R} (env : Env) api svc op target payload l :
  within S (request env api svc op target payload l : Fn R Response).
Proof. by intros w. Qed.

Lemma Set_id (d d' : ResourceData) (key : string) (v : option Value) :
  schema.Set_ d key v = Some d' → rd_id d' = rd_id d.
Proof.
  unfold schema.Set_. destruct (rd_schema d !! key); [|done].
  destruct (schema.fits _ _); [|done]. by intros [= <-].
Qed.

Lemma within_setOrReturn (key : string) (v : option Value) : within S (setOrReturn key v).
Proof.
  intros w Hw. unfold setOrReturn, bind, tfSet.
  destruct (schema.Set_ (rd w) key v) eqn:E; simpl; [|done].
  by rewrite (Set_id _ _ _ _ E).
Qed.

Lemma within_SetId {R} (id : string) : S id → within S (putD (schema.SetId id) : Fn R unit).
Proof. by intros Hid w _. Qed.

Lemma within_WaitMs {R} (n : nat) (poll : Fn R Response) :
  within S poll → within S (msgraph.WaitForCreationReplication n poll).
Proof.
  intros Hp. induction n as [|n IH]; simpl; [by intros w|].
  apply within_bind; [done|]. intros r.
  destruct (r_err r); [|by intros w]. by destruct (NotFound r); [|intros w].
Qed.

Lemma within_WaitAad {R} (n : nat) (poll : Fn R Response) :
  within S poll → within S (aadgraph.WaitForCreationReplication n poll).
Proof.
  intros Hp. induction n as [|n IH]; simpl; [by intros w|].
  apply within_bind; [done|]. intros r.
  destruct (r_err r); [|by intros w]. by destruct (NotFound r); [|intros w].
Qed.

Lemma within_addEach {R} (env : Env) svc op id (l : list string) :
  within S (aadgraph.addEach env svc op id l : Fn R _).
Proof.
  induction l as [|x l IH]; simpl; [by intros w|].
  apply within_bind; [by intros w|]. intros r. by destruct (r_err r); [intros w|].
Qed.

End Within.

(** Proves [within S f] along the structure of [f]. *)
Ltac within_step :=
  lazymatch goal with
  | |- within _ (bind (request _ _ _ _ _ _ _) _) => apply within_bind_request; intros ? ? ?
  | |- within _ (bind (check _ _) _) => apply within_bind_check; intros ?
  | |- within _ (bind _ _) => apply within_bind; [|intros ?]
  | |- within _ (next _) => apply within_next
  | |- within _ (ret _) => apply within_ret
  | |- within _ panic => apply within_panic
  | |- within _ getD => apply within_getD
  | |- within _ (check _ _) => apply within_check
  | |- within _ (deref _) => apply within_deref
  | |- within _ (genUUID _) => apply within_genUUID
  | |- within _ (onBackend _) => apply within_onBackend
  | |- within _ (request _ _ _ _ _ _ _) => apply within_request
  | |- within _ (when _ _) => apply within_when
  | |- within _ (forRange _ _) => apply within_forRange; intros ?
  | |- within _ (invoke _) => apply within_invoke
  | |- within _ (setOrReturn _ _) => apply within_setOrReturn
  | |- within _ (msgraph.WaitForCreationReplication _ _) => apply within_WaitMs
  | |- within _ (aadgraph.WaitForCreationReplication _ _) => apply within_WaitAad
  | |- within _ (aadgraph.addEach _ _ _ _ _) => apply within_addEach
  | |- within _ (match ?x with _ => _ end) => destruct x eqn:?
  end.

Ltac within_tac := cbv beta zeta; repeat (within_step; cbv beta zeta).

Ltac unfold_helpers :=
  unfold msgraph.GroupCheckNameAvailability, msgraph.ApplicationFindByName,
    msgraph.ApplicationSetOwners, applications.applicationSetOwnersTo,
    applications.duplicateGuardAad, applications.validateRolesScopes,
    aadgraph.GroupFindByName, aadgraph.ApplicationFindByName, aadgraph.findByName,
    aadgraph.GroupAllOwners, aadgraph.GroupAllMembers, aadgraph.ApplicationAllOwners,
    aadgraph.listIds, aadgraph.GroupAddMembers, aadgraph.GroupAddOwners,
    aadgraph.ApplicationAddOwners, aadgraph.GroupAddMember.

Lemma within_Read (S : string → Prop) (env : Env) (r : Resource) :
  S "" → within S (Read env r).
Proof.
  intros Hempty.
  destruct r; unfold Read, groups.groupResourceReadAadGraph, groups.groupResourceReadMsGraph,
    applications.applicationResourceRead, applications.applicationResourceReadMsGraph,
    serviceprincipals.servicePrincipalResourceRead; unfold_helpers; within_tac.
  all: apply within_SetId; exact Hempty.
Qed.

Ltac read_within :=
  first [ apply (within_Read _ _ GroupAad) | apply (within_Read _ _ GroupMs)
        | apply (within_Read _ _ ApplicationAad) | apply (within_Read _ _ ApplicationMs)
        | apply (within_Read _ _ ServicePrincipal) ];
  right; by left.

Lemma within_Create (env : Env) (r : Resource) (id0 : string) :
  within (storable env r id0) (Create env r).
Proof.
  destruct r; unfold Create, groups.groupResourceCreateAadGraph, groups.groupResourceCreateMsGraph,
    applications.applicationResourceCreate, applications.applicationResourceCreateMsGraph,
    serviceprincipals.servicePrincipalResourceCreate; unfold_helpers; within_tac.
  all: try read_within.
  all: apply within_SetId; right; right; subst resp;
    match goal with
    | H : r_err (respond _ ?pre ?c) = None |- _ =>
        exists pre, c; (split; [reflexivity|]); (split; [exact H|]); (split; [eassumption|])
    end.
  all: try (intros _ ->; discriminate).
  intros Hne. by destruct Hne.
Qed.

(** Reading an object leaves the stored ID as it is or clears it; it never
    stores another ID. *)
Theorem read_keeps_or_clears_id (env : Env) (r : Resource) (w : World) :
  rd_id (rd (Read env r w).2) = rd_id (rd w) ∨ rd_id (rd (Read env r w).2) = "".
Proof.
  apply (within_Read (λ x, x = rd_id (rd w) ∨ x = "") env r); [by right|by left].
Qed.

(** Whatever the backend answers, the ID a create handler leaves in the
    resource data is the one it started with, the empty string, or an
    object ID that a successful create call returned (a non-empty one,
    except for the MS Graph group handler, which accepts any non-nil
    ID). *)
Theorem create_stores_returned_id (env : Env) (r : Resource) (w : World) :
  storable env r (rd_id (rd w)) (rd_id (rd (Create env r w).2)).
Proof. apply within_Create. by left. Qed.

Lemma delete_not_found_tolerated_witness :
  let env := Examples.emptyDirectory false in
  let w := mkWorld Examples.trackedGroup [] in
  NotFound (respond env (log w) (callOn GroupAad OpDelete (schema.Id (rd w)))) = true
  ∧ (Delete env GroupAad w).1 = Ret [].
Proof.
  split; [reflexivity|].
  apply (delete_not_found_tolerated (Examples.emptyDirectory false) GroupAad
           (mkWorld Examples.trackedGroup [])); [by left|reflexivity].
Defined.

Lemma group_delete_msgraph_returns_error_witness :
  let env := Examples.backend true (λ _ _, Examples.forbidden) in
  let w := mkWorld Examples.trackedGroup [] in
  r_err (respond env (log w) (callOn GroupMs OpDelete (schema.Id (rd w))))
  = Some (BackendError "403 Forbidden")
  ∧ (groups.groupResourceDeleteMsGraph env w).1
    = Ret (tf.ErrorDiagF (Some (BackendError "403 Forbidden"))
             "Deleting group with object ID: %q" ["g1"]).
Proof.
  split; [reflexivity|].
  apply (group_delete_msgraph_returns_error (Examples.backend true (λ _ _, Examples.forbidden))
           (mkWorld Examples.trackedGroup [])).
  reflexivity.
Defined.
(** ** Duplicate values of roles and scopes *)

Lemma firstDuplicate_None (values encountered : list string) :
  applications.firstDuplicate values encountered = None
  ↔ NoDup values ∧ ∀ v, v ∈ values → v ∉ encountered.
Proof.
  revert encountered. induction values as [|val values IH]; intros encountered; simpl.
  - split; [|done]. intros _. split; [constructor|]. intros v Hv. by apply elem_of_nil in Hv.
  - destruct (existsb _ encountered) eqn:E.
    + split; [done|]. intros [_ H]. exfalso. apply (H val); [left|].
      apply existsb_exists in E as (en & Hin & Heq).
      unfold Strings.eqs in Heq. apply bool_decide_eq_true in Heq as ->.
      by apply list_elem_of_In.
    + rewrite IH. rewrite NoDup_cons. split.
      * intros [Hnd H]. split; [split; [|done]|].
        -- intros Hin. apply (H val Hin). apply elem_of_app. right. left.
        -- intros v Hv Hen. apply elem_of_cons in Hv as [Heq|Hv]; [subst v|].
           ++ assert (existsb (λ en, Strings.eqs en val) encountered = true) as E'; [|congruence].
              apply existsb_exists. exists val. split; [by apply list_elem_of_In|].
              unfold Strings.eqs. by apply bool_decide_eq_true.
           ++ apply (H v Hv). apply elem_of_app. by left.
      * intros [[Hval Hnd] H]. split; [done|]. intros v Hv [Hen|Hen]%elem_of_app.
        -- apply (H v); [by right|done].
        -- apply list_elem_of_singleton in Hen as ->. done.
Qed.

(** The values the validation looks at: the non-empty [value]s of the app
    roles, then those of the permission scopes. *)
Lemma validate_values_nonempty (appRoles scopes : list (list (string * string))) :
  Forall (λ v, v ≠ "")
    (filter (λ val, val ≠ "") (map applications.blockValue appRoles)
     ++ filter (λ val, val ≠ "") (map applications.blockValue scopes)).
Proof.
  apply Forall_app. split; apply Forall_forall; intros v Hv;
    by apply list_elem_of_filter in Hv as [? _].
Qed.

(** X6: the validation of roles and scopes succeeds exactly when the
    non-empty values of the app roles and permission scopes, taken
    together, are pairwise different; the empty strings [encountered]
    starts with never match, because empty values are left out. *)
Theorem validate_roles_scopes_nodup (appRoles scopes : list (list (string * string))) :
  applications.applicationValidateRolesScopes appRoles scopes = None
  ↔ NoDup (filter (λ val, val ≠ "") (map applications.blockValue appRoles)
           ++ filter (λ val, val ≠ "") (map applications.blockValue scopes)).
Proof.
  unfold applications.applicationValidateRolesScopes. rewrite firstDuplicate_None.
  split; [by intros [? _]|]. intros Hnd. split; [done|].
  intros v Hv Hen. apply elem_of_replicate in Hen as [-> _].
  pose proof (validate_values_nonempty appRoles scopes) as Hne.
  rewrite Forall_forall in Hne. by apply (Hne "").
Qed.

(** When the validation fails, the value it reports occurs twice. *)
Lemma firstDuplicate_Some (values encountered : list string) (e : error) :
  applications.firstDuplicate values encountered = Some e →
  ∃ val, e = Errorf "validation failed: duplicate value found: %q" [val]
         ∧ val ∈ values.
Proof.
  revert encountered. induction values as [|val values IH]; intros encountered; simpl; [done|].
  destruct (existsb _ encountered).
  - intros [= <-]. exists val. split; [done|left].
  - intros H. destruct (IH _ H) as (v & -> & Hv). exists v. split; [done|by right].
Qed.
(** ** The calls of a relationship update *)

(** X7: one relationship block of the MS Graph group update, when the
    attribute is set and changed and the listing succeeds: the listing
    call; then, when some listed identifier is not desired, one removal
    call with exactly those identifiers; then, when some desired
    identifier is not listed and no removal failed, one addition call
    with exactly those identifiers. A failed removal is returned as the
    handler's error, and no addition call follows it. *)
Theorem group_relation_update_calls (env : Env) (key : string) (listOp removeOp addOp : Op)
    (m1 m2 m3 : string) (group : Object) (id : string) (desired : list string) (w : World) :
  getStr group "ID" = Some id →
  schema.GetOkExists (rd w) key = Some (VStrings desired) →
  schema.HasChange (rd w) key = true →
  let list := mkCall MsGraph Groups listOp id ∅ [] in
  r_err (respond env (log w) list) = None →
  let existing := r_ids (respond env (log w) list) in
  let forRemoval := utils.Difference existing desired in
  let toAdd := utils.Difference desired existing in
  let remove := mkCall MsGraph Groups removeOp (schema.Id (rd w)) ∅ forRemoval in
  let removed := r_err (respond env (log w ++ [list]) remove) in
  let out := groups.updateRelationMsGraph env key listOp removeOp addOp m1 m2 m3 group w in
  ∃ issued, log out.2 = log w ++ issued
    ∧ Examples.summary issued
      = [(MsGraph, listOp, id, [])]
        ++ (if bool_decide (forRemoval = []) then []
            else [(MsGraph, removeOp, schema.Id (rd w), forRemoval)])
        ++ (if bool_decide (toAdd = []) then []
            else if bool_decide (forRemoval = []) then [(MsGraph, addOp, id, toAdd)]
            else match removed with
                 | Some _ => []
                 | None => [(MsGraph, addOp, id, toAdd)]
                 end)
    ∧ (forRemoval ≠ [] → ∀ e, removed = Some e → out.1 = Ret (tf.ErrorDiagF (Some e) m2 [schema.Id (rd w)])).
Proof.
  intros Hid Hget Hch list Herr existing forRemoval toAdd remove removed out.
  subst out removed remove toAdd forRemoval existing list.
  unfold groups.updateRelationMsGraph. run.
  rewrite Hget, Hch, Hid, Herr. unfold ExpandStringSlice, negb.
  repeat (inner_case; run).
  all: eexists; (split; [rewrite <- ?app_assoc; reflexivity|]).
  all: simpl; split; [reflexivity|]; intros Hne e' He'; try done.
  all: try congruence.
  all: match goal with
       | H : bool_decide (_ = []) = true |- _ => apply bool_decide_eq_true in H; done
       end.
Qed.

Lemma group_relation_update_calls_witness :
  let env := Examples.groupWithOwnersAB true in
  let w := mkWorld Examples.groupOwnersAB_BC [] in
  let group : Object := {[ "ID" := VString "g1" ]} in
  let out := groups.updateRelationMsGraph env "owners" OpListOwners OpRemoveOwners OpAddOwners
               "list" "remove" "add" group w in
  ∃ issued, log out.2 = issued
    ∧ Examples.summary issued
      = [(MsGraph, OpListOwners, "g1", []); (MsGraph, OpRemoveOwners, "g1", ["A"]);
         (MsGraph, OpAddOwners, "g1", ["C"])].
Proof.
  destruct (group_relation_update_calls (Examples.groupWithOwnersAB true) "owners"
              OpListOwners OpRemoveOwners OpAddOwners "list" "remove" "add"
              {[ "ID" := VString "g1" ]} "g1" ["B"; "C"]
              (mkWorld Examples.groupOwnersAB_BC []))
    as (issued & Hlog & Hsum & _); [reflexivity..|].
  exists issued. split; [exact Hlog|exact Hsum].
Defined.
(** ** What the handlers do to the resource data *)

Section Preserves.
Context (P : ResourceData → Prop).

Lemma preserves_bind {R A B} (m : Fn R A) (k : A → Fn R B) :
  preserves P m → (∀ a, preserves P (k a)) → preserves P (bind m k).
Proof.
  intros Hm Hk w Hw. unfold bind. specialize (Hm w Hw).
  destruct (m w) as [[a|r|] w']; simpl in *; [by apply Hk|done|done].
Qed.

Lemma preserves_next {R A} (a : A) : preserves P (next a : Fn R A).
Proof. by intros w. Qed.

Lemma preserves_ret {R A} (r : R) : preserves P (ret r : Fn R A).
Proof. by intros w. Qed.

Lemma preserves_panic {R A} : preserves P (panic : Fn R A).
Proof. by intros w. Qed.

Lemma preserves_getD {R} : preserves P (getD : Fn R ResourceData).
Proof. by intros w. Qed.

Lemma preserves_check {R} (e : option error) (mk : error → R) : preserves P (check e mk).
Proof. destruct e; by intros w. Qed.

Lemma preserves_deref {R A} (p : option A) : preserves P (deref p : Fn R A).
Proof. destruct p; by intros w. Qed.

Lemma preserves_genUUID {R} (env : Env) : preserves P (genUUID env : Fn R _).
Proof. by intros w. Qed.

Lemma preserves_onBackend {R A} (f : list Call → A * list Call) :
  preserves P (onBackend f : Fn R A).
Proof. intros w Hw. unfold onBackend. by destruct (f (log w)). Qed.

Lemma preserves_when {R} (c : bool) (body : Fn R unit) :
  preserves P body → preserves P (when c body).
Proof. destruct c; [done|by intros _ w]. Qed.

Lemma preserves_forRange {R A} (l : list A) (body : A → Fn R unit) :
  (∀ x, preserves P (body x)) → preserves P (forRange l body).
Proof.
  intros Hbody. induction l as [|x l IH]; simpl; [by intros w|].
  apply preserves_bind; [apply Hbody|by intros _].
Qed.

Lemma preserves_invoke {R R'} (f : Fn R R) : preserves P f → preserves P (invoke f : Fn R' R).
Proof.
  intros Hf w Hw. unfold invoke. specialize (Hf w Hw).
  by destruct (f w) as [[a|r|] w'].
Qed.

Lemma preserves_request {R} (env : Env) api svc op target payload l :
  preserves P (request env api svc op target payload l : Fn R Response).
Proof. by intros w. Qed.

Lemma preserves_WaitMs {R} (n : nat) (poll : Fn R Response) :
  preserves P poll → preserves P (msgraph.WaitForCreationReplication n poll).
Proof.
  intros Hp. induction n as [|n IH]; simpl; [by intros w|].
  apply preserves_bind; [done|]. intros r.
  destruct (r_err r); [|by intros w]. by destruct (NotFound r); [|intros w].
Qed.

Lemma preserves_WaitAad {R} (n : nat) (poll : Fn R Response) :
  preserves P poll → preserves P (aadgraph.WaitForCreationReplication n poll).
Proof.
  intros Hp. induction n as [|n IH]; simpl; [by intros w|].
  apply preserves_bind; [done|]. intros r.
  destruct (r_err r); [|by intros w]. by destruct (NotFound r); [|intros w].
Qed.

Lemma preserves_WaitForListRemove {R} (n : nat) (item : string)
    (poll : Fn R (list string * option error)) :
  preserves P poll → preserves P (aadgraph.WaitForListRemove n item poll).
Proof.
  intros Hp. induction n as [|n IH]; simpl; [by intros w|].
  apply preserves_bind; [done|]. intros r.
  destruct r.2; [by intros w|]. by destruct (bool_decide _); [|intros w].
Qed.

Lemma preserves_addEach {R} (env : Env) svc op id (l : list string) :
  preserves P (aadgraph.addEach env svc op id l : Fn R _).
Proof.
  induction l as [|x l IH]; simpl; [by intros w|].
  apply preserves_bind; [by intros w|]. intros r. by destruct (r_err r); [intros w|].
Qed.

Lemma preserves_setOrReturn (key : string) (v : option Value) :
  (∀ d d', schema.Set_ d key v = Some d' → P d → P d') →
  preserves P (setOrReturn key v).
Proof.
  intros HP w Hw. unfold setOrReturn, bind, tfSet.
  destruct (schema.Set_ (rd w) key v) eqn:E; simpl; [|done]. by eapply HP.
Qed.

End Preserves.

(** Proves [preserves P f] along the structure of [f]; the assignments
    to the resource data are left over. *)
Ltac preserves_step :=
  lazymatch goal with
  | |- preserves _ (bind _ _) => apply preserves_bind; [|intros ?]
  | |- preserves _ (next _) => apply preserves_next
  | |- preserves _ (ret _) => apply preserves_ret
  | |- preserves _ panic => apply preserves_panic
  | |- preserves _ getD => apply preserves_getD
  | |- preserves _ (check _ _) => apply preserves_check
  | |- preserves _ (deref _) => apply preserves_deref
  | |- preserves _ (genUUID _) => apply preserves_genUUID
  | |- preserves _ (onBackend _) => apply preserves_onBackend
  | |- preserves _ (request _ _ _ _ _ _ _) => apply preserves_request
  | |- preserves _ (when _ _) => apply preserves_when
  | |- preserves _ (forRange _ _) => apply preserves_forRange; intros ?
  | |- preserves _ (invoke _) => apply preserves_invoke
  | |- preserves _ (msgraph.WaitForCreationReplication _ _) => apply preserves_WaitMs
  | |- preserves _ (aadgraph.WaitForCreationReplication _ _) => apply preserves_WaitAad
  | |- preserves _ (aadgraph.WaitForListRemove _ _ _) => apply preserves_WaitForListRemove
  | |- preserves _ (aadgraph.addEach _ _ _ _ _) => apply preserves_addEach
  | |- preserves _ (match ?x with _ => _ end) => destruct x eqn:?
  end.

Ltac preserves_tac := cbv beta zeta; repeat (preserves_step; cbv beta zeta).

Ltac unfold_handlers :=
  unfold groups.groupResourceUpdateAadGraph, groups.groupResourceUpdateMsGraph,
    groups.updateRelationMsGraph, groups.groupResourceRead,
    groups.groupResourceDeleteAadGraph, groups.groupResourceDeleteMsGraph,
    applications.applicationResourceUpdate, applications.applicationResourceUpdateMsGraph,
    applications.applicationResourceDelete, applications.applicationResourceDeleteMsGraph,
    serviceprincipals.servicePrincipalResourceUpdate,
    serviceprincipals.servicePrincipalResourceDelete,
    msgraph.ApplicationSetAppRoles, msgraph.ApplicationSetOAuth2PermissionScopes,
    msgraph.replaceBlocks, aadgraph.GroupRemoveMember;
  unfold_helpers.

Lemma within_preserves (S : string → Prop) {R A} (f : Fn R A) :
  within S f ↔ preserves (λ d, S (rd_id d)) f.
Proof. done. Qed.

Lemma preserves_Update (env : Env) (r : Resource) (S : string → Prop) :
  S "" → preserves (λ d, S (rd_id d)) (Update env r).
Proof.
  intros Hempty.
  destruct r; unfold Update; unfold_handlers; preserves_tac.
  all: apply within_preserves;
    first [ apply (within_Read _ _ GroupAad) | apply (within_Read _ _ GroupMs)
          | apply (within_Read _ _ ApplicationAad) | apply (within_Read _ _ ServicePrincipal) ];
    exact Hempty.
Qed.

(** X8: updating a group, application or service principal leaves the
    stored resource ID as it is or, through the read that ends the
    update, clears it; no update stores another ID. *)
Theorem update_keeps_or_clears_id (env : Env) (r : Resource) (w : World) :
  rd_id (rd (Update env r w).2) = rd_id (rd w) ∨ rd_id (rd (Update env r w).2) = "".
Proof.
  apply (preserves_Update env r (λ x, x = rd_id (rd w) ∨ x = "")); [by right|by left].
Qed.

(** X9: no delete handler touches the resource data: the attributes and
    the stored ID are the same after the handler as before, whatever the
    backend answers. *)
Theorem delete_leaves_resource_data (env : Env) (r : Resource) (w : World) :
  rd (Delete env r w).2 = rd w.
Proof.
  assert (H : preserves (λ d, d = rd w) (Delete env r)); [|by apply H].
  destruct r; unfold Delete; unfold_handlers; preserves_tac.
Qed.

(** X10: the MS Graph update of an application never writes to the
    resource data: it ends without the read its siblings end with, so
    the attributes and the stored ID are the same after it as before. *)
Theorem application_update_msgraph_leaves_resource_data (env : Env) (w : World) :
  rd (applications.applicationResourceUpdateMsGraph env w).2 = rd w.
Proof.
  assert (H : preserves (λ d, d = rd w) (applications.applicationResourceUpdateMsGraph env));
    [|by apply H].
  unfold_handlers. unfold applications.validateRolesScopes. preserves_tac.
Qed.
(** ** The name lookups *)

Lemma forRange_find {R A} (l : list A) (body : A → Fn R unit) (f : A → bool)
    (res : A → R) (w : World) :
  (∀ x, x ∈ l → body x w = if f x then (Ret (res x), w) else (Next tt, w)) →
  forRange l body w
  = match find f l with Some x => (Ret (res x), w) | None => (Next tt, w) end.
Proof.
  induction l as [|y l IH]; intros Hbody; [done|].
  simpl. unfold bind. rewrite (Hbody y); [|left].
  destruct (f y); [done|]. apply IH. intros x Hx. apply Hbody. by right.
Qed.



(** X12: when the listing succeeds, the name lookup of the applications
    returns the first listed application whose display name is exactly
    the name, and nil when there is none; an application without display
    name is passed over. It has issued the listing call and no other. *)
Theorem application_find_by_name_result (env : Env) (name : string) (w : World) :
  let listing := respond env (log w) (listCall ApplicationMs name) in
  r_err listing = None →
  msgraph.ApplicationFindByName env name w
  = (Ret (find (λ app, bool_decide (getStr app "DisplayName" = Some name)) (r_objs listing), None),
     mkWorld (rd w) (log w ++ [listCall ApplicationMs name])).
Proof.
  intros listing Herr. subst listing. unfold listCall in *. simpl in *.
  unfold msgraph.ApplicationFindByName. run. rewrite Herr.
  match goal with |- context [forRange ?l ?b ?w'] =>
    rewrite (forRange_find l b (λ app, bool_decide (getStr app "DisplayName" = Some name))
               (λ o, (Some o, None)) w')
  end.
  - by destruct (find _ _).
  - intros o Ho. destruct (getStr o "DisplayName") as [n|]; [|done].
    unfold Strings.eqs. repeat case_bool_decide; naive_solver.
Qed.

Lemma application_find_by_name_result_witness :
  let env := Examples.directoryWith "app" "m" in
  let w := mkWorld Examples.sharedApplication [] in
  (msgraph.ApplicationFindByName env "App" w).1 = Ret (None, None)
  ∧ ∃ app, (msgraph.ApplicationFindByName env "app" w).1 = Ret (Some app, None).
Proof.
  split.
  - rewrite (application_find_by_name_result (Examples.directoryWith "app" "m") "App"
               (mkWorld Examples.sharedApplication [])); reflexivity.
  - eexists.
    rewrite (application_find_by_name_result (Examples.directoryWith "app" "m") "app"
               (mkWorld Examples.sharedApplication [])); reflexivity.
Defined.

(** ** The object ID a create call returns *)

Section Yields.
Context {R : Type} (E : R → Prop).


Lemma yields_weaken {A} (N N' : A → Prop) (f : Fn R A) :
  yields E N f → (∀ a, N a → N' a) → yields E N' f.
Proof.
  intros Hf HN w. destruct (Hf w) as [Hrd Hout]. split; [done|].
  destruct (f w).1; auto.
Qed.











End Yields.








